(** * Local Summarizer: extraction cascade and extractive summarizer

    A shallow embedding of [server/app.py]:

    - [normalize_word], [build_word_freq], [score_sentences] and
      [extractive_summarize] (the frequency-based extractive summarizer);
    - [extract_text_from_pdf_bytes], [extract_text_from_image_bytes] and
      [extract_text] (the extraction cascade);
    - [summarize_route] (the [/api/summarize] handler, from the parsed JSON
      payload to the response).

    Conventions.
    - A Python [str] is a [string]; its characters are read as code points
      below 256.
    - A Python [int] is a [Z].  A sentence score is the quotient of two
      integers, held as an exact rational [Q] (binary64 rounding of the
      quotient is not modelled).
    - [freq] (a [defaultdict(int)]) is a [gmap string Z]; [scores], whose
      iteration order is used by [sorted], is an association list in
      insertion order.
    - A Python exception is the [Raise] branch of [Result]; [KeyError] and
      [IndexError] inside the summarizer are the [None] of [option].
    - The NLTK tokenizers, the NLTK stopword list, PyPDF2, PIL, pytesseract
      and [base64.b64decode] are libraries outside the repository: they are
      [Variable]s of the sections below. *)

From Stdlib Require Import ZArith QArith Ascii String.
From stdpp Require Import gmap strings list sorting fin_maps.

Local Open Scope string_scope.
Local Open Scope list_scope.
Local Open Scope Z_scope.
Set Warnings "-register-all".


(** ** Python strings *)

Module PyStr.

Definition code (c : ascii) : N := N_of_ascii c.

(** [str.isspace] on a single character, for code points below 256. *)
Definition is_space (c : ascii) : bool :=
  let n := code c in
  ((9 <=? n) && (n <=? 13) || (28 <=? n) && (n <=? 32)
   || (n =? 133) || (n =? 160))%N.

Fixpoint lstrip (s : string) : string :=
  match s with
  | EmptyString => EmptyString
  | String c r => if is_space c then lstrip r else s
  end.

Fixpoint rstrip (s : string) : string :=
  match s with
  | EmptyString => EmptyString
  | String c r =>
      match rstrip r with
      | EmptyString => if is_space c then EmptyString else String c EmptyString
      | r' => String c r'
      end
  end.

(** [s.strip()] *)
Definition strip (s : string) : string := rstrip (lstrip s).

(** [len(s)] *)
Definition len (s : string) : Z := Z.of_nat (String.length s).

(** [c.lower()] for a code point below 256. *)
Definition lower_char (c : ascii) : ascii :=
  let n := code c in
  if ((65 <=? n) && (n <=? 90)
      || (192 <=? n) && (n <=? 222) && negb (n =? 215))%N
  then ascii_of_N (n + 32) else c.

Fixpoint lower (s : string) : string :=
  match s with
  | EmptyString => EmptyString
  | String c r => String (lower_char c) (lower r)
  end.

(** The character class [[a-zA-Z0-9]]. *)
Definition is_ascii_alnum (c : ascii) : bool :=
  let n := code c in
  ((48 <=? n) && (n <=? 57) || (65 <=? n) && (n <=? 90)
   || (97 <=? n) && (n <=? 122))%N.

(** The character class [[a-z0-9]]. *)
Definition is_lower_alnum (c : ascii) : bool :=
  let n := code c in
  ((48 <=? n) && (n <=? 57) || (97 <=? n) && (n <=? 122))%N.

(** [re.sub(r'[^a-zA-Z0-9]', '', s)] *)
Fixpoint remove_non_alnum (s : string) : string :=
  match s with
  | EmptyString => EmptyString
  | String c r =>
      if is_ascii_alnum c then String c (remove_non_alnum r)
      else remove_non_alnum r
  end.

Fixpoint all_chars (p : ascii -> bool) (s : string) : bool :=
  match s with
  | EmptyString => true
  | String c r => p c && all_chars p r
  end.

(** [s.startswith(p)] *)
Definition startswith (s p : string) : bool := String.prefix p s.

Definition nl : ascii := ascii_of_N 10.

(** The separators ["\n"] and ["\n\n"]. *)
Definition newline : string := String nl EmptyString.
Definition blank_line : string := String nl (String nl EmptyString).

(** [sep.join(l)] *)
Definition join (sep : string) (l : list string) : string :=
  String.concat sep l.

End PyStr.

(** ** Python lists and dictionaries *)

Module PyList.

(** [l[:k]] for an integer [k] of either sign. *)
Definition slice_to {A} (k : Z) (l : list A) : list A :=
  if 0 <=? k then take (Z.to_nat k) l
  else take (length l - Z.to_nat (- k)) l.

(** [enumerate(l)] *)
Definition enumerate {A} (l : list A) : list (nat * A) :=
  zip (seq 0 (length l)) l.

(** [sorted(l)] on indices: insertion into an ascending list. *)
Fixpoint insert_asc (x : nat) (l : list nat) : list nat :=
  match l with
  | [] => [x]
  | y :: r => if (y <? x)%nat then y :: insert_asc x r else x :: y :: r
  end.

Definition sorted (l : list nat) : list nat := foldr insert_asc [] l.

(** [sorted(l, key=..., reverse=True)] on elements decorated with their
    key.  The sort is stable: of two elements with equal keys the one that
    came first stays first. *)
Definition Qltb (a b : Q) : bool := negb (Qle_bool b a).

Fixpoint insert_desc {A} (x : A * Q) (l : list (A * Q)) : list (A * Q) :=
  match l with
  | [] => [x]
  | y :: r => if Qltb (snd x) (snd y) then y :: insert_desc x r
              else x :: y :: r
  end.

Definition sorted_desc {A} (l : list (A * Q)) : list (A * Q) :=
  foldr insert_desc [] l.

End PyList.

Module PyDict.

(** A dictionary in insertion order. *)
Definition t (K V : Type) : Type := list (K * V).

Definition empty {K V} : t K V := [].

(** [d[k]], [None] for [KeyError]. *)
Fixpoint get {K V} `{EqDecision K} (d : t K V) (k : K) : option V :=
  match d with
  | [] => None
  | (k', v) :: r => if decide (k' = k) then Some v else get r k
  end.

(** [d[k] = v]: an existing key keeps its place, a new one goes last. *)
Fixpoint set {K V} `{EqDecision K} (d : t K V) (k : K) (v : V) : t K V :=
  match d with
  | [] => [(k, v)]
  | (k', v') :: r =>
      if decide (k' = k) then (k, v) :: r else (k', v') :: set r k v
  end.

(** Iteration over [d]: its keys in insertion order. *)
Definition keys {K V} (d : t K V) : list K := d.*1.

End PyDict.

Import PyStr PyList.

(** ** The extractive summarizer *)

Section Summarizer.

(** [nltk.tokenize.word_tokenize] and [nltk.tokenize.sent_tokenize]. *)
Variable word_tokenize : string -> list string.
Variable sent_tokenize : string -> list string.

(** [STOPWORDS = set(stopwords.words("english"))] *)
Variable STOPWORDS : gset string.

Definition normalize_word (w : string) : string :=
  lower (remove_non_alnum w).

(** One iteration of the loop of [build_word_freq]. *)
Definition count_word (freq : gmap string Z) (w : string) : gmap string Z :=
  let nw := normalize_word w in
  if decide (nw = "") then freq
  else if decide (nw ∈ STOPWORDS) then freq
  else <[nw := default 0 (freq !! nw) + 1]> freq.

Definition build_word_freq (text : string) : gmap string Z :=
  foldl count_word ∅ (word_tokenize text).

(** The invariant of a frequency model: its keys are non-empty, lowercase,
    alphanumeric and no stopwords, its counts positive. *)
Definition frequency_model (freq : gmap string Z) : Prop :=
  forall k v, freq !! k = Some v ->
    k <> "" /\ all_chars is_lower_alnum k = true /\ (k ∉ STOPWORDS) /\ 0 < v.

(** The inner loop of [score_sentences]: the sum accumulated in [score]. *)
Definition add_word (freq : gmap string Z) (score : Z) (w : string) : Z :=
  let nw := normalize_word w in
  if decide (nw = "") then score
  else score + default 0 (freq !! nw).

Definition sum_counts (freq : gmap string Z) (words : list string) : Z :=
  foldl (add_word freq) 0 words.

(** [score / (len(words) + 1)] *)
Definition sentence_score (freq : gmap string Z) (words : list string) : Q :=
  Qmake (sum_counts freq words) (Pos.of_succ_nat (length words)).

(** The count the model holds for the normalized token, 0 when it does not
    know it. *)
Definition known_count (freq : gmap string Z) (w : string) : Z :=
  default 0 (freq !! normalize_word w).

(** The score in the words of the specification: the sum over the tokens of
    their known counts, divided by the number of tokens plus one. *)
Definition spec_sentence_score (freq : gmap string Z) (words : list string)
  : Q :=
  let total := foldr Z.add 0 (known_count freq <$> words) in
  (inject_Z total / inject_Z (Z.of_nat (length words) + 1))%Q.

Definition score_sentences (sentences : list string) (freq : gmap string Z)
  : PyDict.t nat Q :=
  foldl (fun scores '(idx, sent) =>
           PyDict.set scores idx (sentence_score freq (word_tokenize sent)))
        PyDict.empty (enumerate sentences).

Definition extractive_summarize (text : string) (max_sentences : Z)
  : option string :=
  if decide (text = "") then Some (strip text)
  else if len (strip text) <? 50 then Some (strip text)
  else
    let sentences := sent_tokenize text in
    if Z.of_nat (length sentences) <=? max_sentences
    then Some (join blank_line sentences)
    else
      let freq := build_word_freq text in
      if decide (freq = ∅)
      then Some (join blank_line (slice_to max_sentences sentences))
      else
        let scores := score_sentences sentences freq in
        keyed ← mapM (fun i => v ← PyDict.get scores i; Some (i, v))
                     (PyDict.keys scores);
        let top_idxs := slice_to max_sentences (sorted_desc keyed).*1 in
        let top_idxs_sorted := sorted top_idxs in
        selected ← mapM (fun i => sentences !! i) top_idxs_sorted;
        Some (join blank_line selected).

End Summarizer.

(** Two stopword sets treat the word [w] alike: its normalization is empty,
    or is in both sets, or in neither. *)
Definition same_stopword (SW SW' : gset string) (w : string) : Prop :=
  normalize_word w <> "" ->
  (normalize_word w ∈ SW <-> normalize_word w ∈ SW').

(** ** Exceptions *)

Inductive exn : Type :=
| UnidentifiedImageError
| LibraryError            (* any other [Exception] raised by a library *)
| AttributeError
| TypeError
| LookupError             (* [KeyError] or [IndexError] *)
| HTTPException (status_code : Z) (detail : string).

Inductive Result (A : Type) : Type :=
| Ok (a : A)
| Raise (e : exn).
Arguments Ok {A} a.
Arguments Raise {A} e.

Global Instance Result_ret : MRet Result := fun A a => Ok a.
Global Instance Result_bind : MBind Result := fun A B f m =>
  match m with Ok a => f a | Raise e => Raise e end.

(** [try: body / except Exception: handler] *)
Definition try_except {A} (body : Result A) (handler : exn -> Result A)
  : Result A :=
  match body with Ok a => Ok a | Raise e => handler e end.

(** ** The extraction cascade *)

Definition bytes : Type := list Byte.byte.

Section Extraction.

(** [PyPDF2.PdfReader(BytesIO(b)).pages]: opening the reader may raise, and
    so may each step of the iteration over its pages. *)
Variable page : Type.
Variable PdfReader_pages : bytes -> Result (list (Result page)).
(** [page.extract_text()], which returns a string or [None], or raises. *)
Variable page_extract_text : page -> Result (option string).
(** [Image.open(BytesIO(b)).convert("RGB")] and
    [pytesseract.image_to_string]. *)
Variable image : Type.
Variable Image_open_convert : bytes -> Result image.
Variable image_to_string : image -> Result string.

(** The body of the page loop: [txt], after the inner [try]. *)
Definition page_text (p : page) : string :=
  match page_extract_text p with
  | Ok (Some txt) => txt
  | Ok None => ""
  | Raise _ => ""
  end.

Fixpoint collect_pages (pages : list (Result page)) (texts : list string)
  : Result (list string) :=
  match pages with
  | [] => Ok texts
  | Raise e :: _ => Raise e
  | Ok p :: rest =>
      let txt := page_text p in
      collect_pages rest (if decide (txt = "") then texts else texts ++ [txt])
  end.

Definition extract_text_from_pdf_bytes (file_bytes : bytes) : Result string :=
  try_except
    (pages ← PdfReader_pages file_bytes;
     texts ← collect_pages pages [];
     Ok (strip (join newline texts)))
    (fun _ => Ok "").

Definition extract_text_from_image_bytes (file_bytes : bytes)
  : Result string :=
  try_except
    (img ← Image_open_convert file_bytes;
     text ← image_to_string img;
     Ok (strip text))
    (fun e => match e with
              | UnidentifiedImageError => Ok ""
              | _ => Ok ""
              end).

Definition is_pdf_type (mime_type : string) : bool :=
  bool_decide (mime_type = "application/pdf")
  || bool_decide (mime_type = "application/x-pdf").

Definition extract_text (mime_type : string) (file_bytes : bytes)
  : Result string :=
  early ← (if is_pdf_type mime_type
           then text ← extract_text_from_pdf_bytes file_bytes;
                Ok (if decide (text = "") then None else Some text)
           else Ok None);
  match early with
  | Some text => Ok text
  | None =>
      if startswith mime_type "image/"
      then extract_text_from_image_bytes file_bytes
      else
        text ← extract_text_from_pdf_bytes file_bytes;
        if decide (text = "") then extract_text_from_image_bytes file_bytes
        else Ok text
  end.

End Extraction.

(** ** The [/api/summarize] route *)

(** A parsed JSON value.  An object lists each of its keys once. *)
Inductive json : Type :=
| JNull
| JBool (b : bool)
| JNum (q : Q)
| JStr (s : string)
| JArr (items : list json)
| JObj (fields : list (string * json)).

(** Python truthiness of a parsed JSON value. *)
Definition truthy (v : json) : bool :=
  match v with
  | JNull => false
  | JBool b => b
  | JNum q => negb (Qeq_bool q 0)
  | JStr s => negb (bool_decide (s = ""))
  | JArr items => negb (bool_decide (items = []))
  | JObj fields => negb (bool_decide (fields = []))
  end.

(** [a or b] *)
Definition py_or (a b : json) : json := if truthy a then a else b.

(** [d.get(k)] and [d.get(k, dflt)]; [AttributeError] when [d] is not a
    dictionary. *)
Definition json_get (d : json) (k : string) (dflt : json) : Result json :=
  match d with
  | JObj fields => Ok (default dflt (PyDict.get fields k))
  | _ => Raise AttributeError
  end.

(** [isinstance(v, dict) and k in v] *)
Definition is_dict_with (v : json) (k : string) : bool :=
  match v with
  | JObj fields => bool_decide (is_Some (PyDict.get fields k))
  | _ => false
  end.

(** The values a [for] loop over [v] yields; [TypeError] when [v] is not
    iterable. *)
Definition json_iter (v : json) : Result (list json) :=
  match v with
  | JArr items => Ok items
  | JObj fields => Ok (JStr <$> fields.*1)
  | JStr s => Ok ((fun c => JStr (String c EmptyString)) <$> list_ascii_of_string s)
  | _ => Raise TypeError
  end.

Inductive response : Type :=
| NoTextResponse (summary message : string)
| SummaryResponse (summary : string) (source_text_length : Z)
                  (source_mime_type : json).

Definition no_text_message : string :=
  "No text could be extracted from the file. If it's an image, ensure it contains printed text (OCR).".

(** The variables the scan of [contents] assigns. *)
Record scan_state : Type := ScanState {
  file_bytes : option bytes;
  mime_type : json;
  prompt_text : json
}.

Section Route.

Variable word_tokenize : string -> list string.
Variable sent_tokenize : string -> list string.
Variable STOPWORDS : gset string.
Variable page : Type.
Variable PdfReader_pages : bytes -> Result (list (Result page)).
Variable page_extract_text : page -> Result (option string).
Variable image : Type.
Variable Image_open_convert : bytes -> Result image.
Variable image_to_string : image -> Result string.
(** [base64.b64decode] on a string, [None] when it raises. *)
Variable b64decode : string -> option bytes.

(** The body of [for part in parts]. *)
Definition scan_part (st : scan_state) (part : json) : Result scan_state :=
  if is_dict_with part "inlineData" then
    inline ← json_get part "inlineData" JNull;
    mt ← json_get inline "mimeType" JNull;
    b64 ← json_get inline "data" JNull;
    if truthy b64 then
      match b64 with
      | JStr s =>
          match b64decode s with
          | Some b => Ok (ScanState (Some b) mt (prompt_text st))
          | None => Raise (HTTPException 400 "Invalid base64 data")
          end
      | _ => Raise (HTTPException 400 "Invalid base64 data")
      end
    else Ok (ScanState (file_bytes st) mt (prompt_text st))
  else if is_dict_with part "text" && negb (truthy (prompt_text st)) then
    txt ← json_get part "text" JNull;
    Ok (ScanState (file_bytes st) (mime_type st) txt)
  else Ok st.

Fixpoint scan_parts (st : scan_state) (parts : list json)
  : Result scan_state :=
  match parts with
  | [] => Ok st
  | part :: rest => st' ← scan_part st part; scan_parts st' rest
  end.

(** The body of [for content in contents]. *)
Definition scan_content (st : scan_state) (content : json)
  : Result scan_state :=
  parts ← json_get content "parts" (JArr []);
  items ← json_iter parts;
  scan_parts st items.

Fixpoint scan_contents (st : scan_state) (contents : list json)
  : Result scan_state :=
  match contents with
  | [] => Ok st
  | content :: rest => st' ← scan_content st content; scan_contents st' rest
  end.

(** [(prompt_text + "\n\n" + extracted_text) if prompt_text else
    extracted_text] *)
Definition combined_text (prompt : json) (extracted_text : string)
  : Result string :=
  if truthy prompt then
    match prompt with
    | JStr p => Ok (p +:+ blank_line +:+ extracted_text)
    | _ => Raise TypeError
    end
  else Ok extracted_text.

(** [request]: the parsed body, [None] when [request.json()] raises. *)
Definition summarize_route (request : option json) : Result response :=
  payload ← match request with
            | Some p => Ok p
            | None => Raise (HTTPException 400 "Invalid JSON payload")
            end;
  contents ← json_get payload "contents" JNull;
  items ← match contents with
          | JArr (c :: cs) => Ok (c :: cs)
          | _ => Raise (HTTPException 400 "Missing 'contents' array")
          end;
  st ← scan_contents (ScanState None JNull JNull) items;
  fb ← match file_bytes st with
       | Some (b :: bs) => Ok (b :: bs)
       | _ => Raise (HTTPException 400 "No inline file data found")
       end;
  extracted_text ←
    match py_or (mime_type st) (JStr "") with
    | JStr m => extract_text page PdfReader_pages page_extract_text image
                  Image_open_convert image_to_string m fb
    | _ => Raise AttributeError
    end;
  if decide (extracted_text = "") then Ok (NoTextResponse "" no_text_message)
  else
    combined ← combined_text (prompt_text st) extracted_text;
    summary ← match extractive_summarize word_tokenize sent_tokenize
                      STOPWORDS combined 4 with
              | Some s => Ok s
              | None => Raise LookupError
              end;
    Ok (SummaryResponse summary (len extracted_text)
          (py_or (mime_type st) (JStr "unknown"))).

End Route.

(** ** A concrete environment

    Instances of the library functions, used to run the definitions above
    on concrete inputs.  The two tokenizers are small: on plain English
    sentences (words separated by single spaces, sentences ended by a full
    stop, no abbreviations, no contractions) they return what the NLTK
    tokenizers return. *)

Module Sample.

Definition flush (cur : string) : list string :=
  if decide (cur = "") then [] else [cur].

Definition snoc (cur : string) (c : ascii) : string :=
  cur +:+ String c EmptyString.

(** Words are maximal runs of letters and digits; any other character that
    is not white space is a token of its own. *)
Fixpoint words_from (cur s : string) : list string :=
  match s with
  | EmptyString => flush cur
  | String c r =>
      if is_space c then flush cur ++ words_from "" r
      else if is_ascii_alnum c then words_from (snoc cur c) r
      else flush cur ++ String c EmptyString :: words_from "" r
  end.

Definition word_tokenize (s : string) : list string := words_from "" s.

Definition is_terminator (c : ascii) : bool :=
  bool_decide (c = "."%char) || bool_decide (c = "!"%char)
  || bool_decide (c = "?"%char).

Definition at_break (r : string) : bool :=
  match r with
  | EmptyString => true
  | String c _ => is_space c
  end.

(** A sentence ends at a terminator followed by white space or by the end
    of the text; the white space between sentences belongs to neither. *)
Fixpoint sents_from (cur s : string) : list string :=
  match s with
  | EmptyString => flush cur
  | String c r =>
      if is_terminator c && at_break r then snoc cur c :: sents_from "" r
      else if is_space c && bool_decide (cur = "") then sents_from "" r
      else sents_from (snoc cur c) r
  end.

Definition sent_tokenize (s : string) : list string := sents_from "" s.

(** [stopwords.words("english")] of the NLTK corpus. *)
Definition english_stopwords : list string :=
  [ "i"; "me"; "my"; "myself"; "we"; "our"; "ours"; "ourselves"; "you";
    "you're"; "you've"; "you'll"; "you'd"; "your"; "yours"; "yourself";
    "yourselves"; "he"; "him"; "his"; "himself"; "she"; "she's"; "her";
    "hers"; "herself"; "it"; "it's"; "its"; "itself"; "they"; "them";
    "their"; "theirs"; "themselves"; "what"; "which"; "who"; "whom"; "this";
    "that"; "that'll"; "these"; "those"; "am"; "is"; "are"; "was"; "were";
    "be"; "been"; "being"; "have"; "has"; "had"; "having"; "do"; "does";
    "did"; "doing"; "a"; "an"; "the"; "and"; "but"; "if"; "or"; "because";
    "as"; "until"; "while"; "of"; "at"; "by"; "for"; "with"; "about";
    "against"; "between"; "into"; "through"; "during"; "before"; "after";
    "above"; "below"; "to"; "from"; "up"; "down"; "in"; "out"; "on"; "off";
    "over"; "under"; "again"; "further"; "then"; "once"; "here"; "there";
    "when"; "where"; "why"; "how"; "all"; "any"; "both"; "each"; "few";
    "more"; "most"; "other"; "some"; "such"; "no"; "nor"; "not"; "only";
    "own"; "same"; "so"; "than"; "too"; "very"; "s"; "t"; "can"; "will";
    "just"; "don"; "don't"; "should"; "should've"; "now"; "d"; "ll"; "m";
    "o"; "re"; "ve"; "y"; "ain"; "aren"; "aren't"; "couldn"; "couldn't";
    "didn"; "didn't"; "doesn"; "doesn't"; "hadn"; "hadn't"; "hasn";
    "hasn't"; "haven"; "haven't"; "isn"; "isn't"; "ma"; "mightn";
    "mightn't"; "mustn"; "mustn't"; "needn"; "needn't"; "shan"; "shan't";
    "shouldn"; "shouldn't"; "wasn"; "wasn't"; "weren"; "weren't"; "won";
    "won't"; "wouldn"; "wouldn't" ].

Definition STOPWORDS : gset string := list_to_set english_stopwords.

Definition summarize : string -> Z -> option string :=
  extractive_summarize word_tokenize sent_tokenize STOPWORDS.

(** The text of the concrete scenario. *)
Definition mammals_text : string :=
  "Cats are mammals. Dogs are mammals too. The sky is blue. Water boils at 100 degrees.".

Definition mammals_sentences : list string :=
  [ "Cats are mammals."; "Dogs are mammals too."; "The sky is blue.";
    "Water boils at 100 degrees." ].

(** The summary the specification expects, and the one the code returns. *)
Definition mammals_expected : string :=
  "Cats are mammals." +:+ blank_line +:+ "Dogs are mammals too.".
Definition mammals_summary : string :=
  "Cats are mammals." +:+ blank_line +:+ "Water boils at 100 degrees.".

(** A text of two sentences, shorter than 50 characters. *)
Definition short_text : string := "It rains. We stay home.".

(** One uploaded document: the base64 payload [aGk=] holds two bytes, no
    PDF reader opens them, and reading them as an image yields
    [report_text]. *)
Definition report_b64 : string := "aGk=".
Definition report_bytes : bytes := [Byte.x68; Byte.x69].
Definition report_text : string :=
  "Revenue grew strongly this year. Profit margins were stable. The office moved to a new building. Staff enjoyed the summer party. The cafeteria menu changed.".
Definition report_prompt : string := "Focus on revenue and profit.".

Definition b64decode (s : string) : option bytes :=
  if decide (s = report_b64) then Some report_bytes else None.

Definition page : Type := string.
Definition PdfReader_pages (b : bytes) : Result (list (Result page)) :=
  Raise LibraryError.
Definition page_extract_text (p : page) : Result (option string) :=
  Ok (Some p).
Definition image : Type := bytes.
Definition Image_open_convert (b : bytes) : Result image := Ok b.
Definition image_to_string (img : image) : Result string := Ok report_text.

Definition extract : string -> bytes -> Result string :=
  extract_text page PdfReader_pages page_extract_text image
    Image_open_convert image_to_string.

Definition route : option json -> Result response :=
  summarize_route word_tokenize sent_tokenize STOPWORDS page PdfReader_pages
    page_extract_text image Image_open_convert image_to_string b64decode.

(** The request body
    [{"contents": [{"parts": [{"text": report_prompt},
       {"inlineData": {"mimeType": "image/png", "data": report_b64}}]}]}]. *)
Definition report_request : option json :=
  Some (JObj [("contents", JArr [JObj [("parts", JArr [
    JObj [("text", JStr report_prompt)];
    JObj [("inlineData", JObj [("mimeType", JStr "image/png");
                               ("data", JStr report_b64)])]])]])]).

(** The summary returned for [report_request]: its first sentence is the
    prompt. *)
Definition report_summary : string :=
  join blank_line
    [ report_prompt; "Revenue grew strongly this year.";
      "Profit margins were stable."; "Staff enjoyed the summer party." ].

(** A text with stopwords in several casings and next to punctuation. *)
Definition cat_text : string := "The Cat, the cat! THE (cat) is not A dog.".

End Sample.


(** ** Further functions of the repository *)

(** The outcome of [decode_inline_data]: the decoded bytes, the
    [ValueError] the function raises itself, or another exception. *)
Inductive decode_outcome : Type :=
| Decoded (b : bytes)
| ValueError (msg : string)
| DecodeRaise (e : exn).

(** [sub in s] on strings. *)
Definition str_contains (sub s : string) : bool :=
  bool_decide (is_Some (String.index 0 sub s)).

(** ["data" in inline] for a truthy [inline]; [None] for the [TypeError] of
    a value that is no container. *)
Definition has_data (inline : json) : option bool :=
  match inline with
  | JObj fields => Some (bool_decide (is_Some (PyDict.get fields "data")))
  | JStr s => Some (str_contains "data" s)
  | JArr items =>
      Some (existsb (fun v => match v with
                              | JStr s => bool_decide (s = "data")
                              | _ => false
                              end) items)
  | _ => None
  end.

Section InlineData.

Variable b64decode : string -> option bytes.

(** [decode_inline_data(part)] (app.py, lines 61-66). *)
Definition decode_inline_data (part : json) : decode_outcome :=
  match json_get part "inlineData" JNull with
  | Raise e => DecodeRaise e
  | Ok inline =>
      if negb (truthy inline)
      then ValueError "No inlineData.data found in part"
      else
        match has_data inline with
        | None => DecodeRaise TypeError
        | Some false => ValueError "No inlineData.data found in part"
        | Some true =>
            match inline with
            | JObj fields =>
                match PyDict.get fields "data" with
                | Some (JStr b64) =>
                    match b64decode b64 with
                    | Some b => Decoded b
                    | None => DecodeRaise LibraryError
                    end
                | Some _ => DecodeRaise TypeError
                | None => DecodeRaise LookupError
                end
            | _ => DecodeRaise TypeError
            end
        end
  end.

End InlineData.

(** ** Predicates used in the statements below *)

(** [w] with each ASCII lowercase letter replaced by its capital. *)
Definition capital_char (c : ascii) : ascii :=
  let n := code c in
  if ((97 <=? n) && (n <=? 122))%N then ascii_of_N (n - 32) else c.

Fixpoint capitals (s : string) : string :=
  match s with
  | EmptyString => EmptyString
  | String c r => String (capital_char c) (capitals r)
  end.

(** The number of tokens whose normalization is [k]. *)
Definition count_tokens (k : string) (words : list string) : Z :=
  Z.of_nat (length (filter (fun w => normalize_word w = k) words)).

(** A token that the frequency model leaves out. *)
Definition silent (STOPWORDS : gset string) (w : string) : Prop :=
  normalize_word w = "" \/ normalize_word w ∈ STOPWORDS.

(** [a] is ranked before [b]: a higher score, or the same score and a
    smaller index. *)
Definition beats (a b : nat * Q) : Prop :=
  (b.2 < a.2)%Q \/ (a.2 == b.2)%Q /\ (a.1 < b.1)%nat.

(** A value that is a string, or falsy. *)
Definition str_or_falsy (v : json) : bool :=
  match v with
  | JStr _ => true
  | _ => negb (truthy v)
  end.

(** A part as the clients send it: when it holds [inlineData], that is an
    object whose [mimeType] is a string or falsy; otherwise its [text], if
    any, is a string or falsy.  Values that are no objects are let through:
    the scan skips them. *)
Definition wf_part (part : json) : bool :=
  match part with
  | JObj fields =>
      match PyDict.get fields "inlineData" with
      | Some (JObj inline) =>
          str_or_falsy (default JNull (PyDict.get inline "mimeType"))
      | Some _ => false
      | None =>
          match PyDict.get fields "text" with
          | Some t => str_or_falsy t
          | None => true
          end
      end
  | _ => true
  end.

(** A content: an object whose [parts], if any, is an array of such parts. *)
Definition wf_content (content : json) : bool :=
  match content with
  | JObj fields =>
      match PyDict.get fields "parts" with
      | None => true
      | Some (JArr parts) => forallb wf_part parts
      | Some _ => false
      end
  | _ => false
  end.

(** A result that is a value satisfying [P], or an [HTTPException] with
    status 400. *)
Definition ok_or_400 {A} (P : A -> Prop) (r : Result A) : Prop :=
  match r with
  | Ok a => P a
  | Raise (HTTPException 400 _) => True
  | Raise _ => False
  end.

(** The scan has met nothing but strings, or falsy values, as declared
    type and as prompt. *)
Definition typed_state (st : scan_state) : Prop :=
  str_or_falsy (mime_type st) = true /\ str_or_falsy (prompt_text st) = true.

(** The errors of the scan: a failed base64 decoding, or a value that is
    no object where the code calls [.get], or a [parts] that cannot be
    iterated. *)
Definition scan_error (e : exn) : Prop :=
  e = HTTPException 400 "Invalid base64 data"
  \/ e = AttributeError \/ e = TypeError.

(** ** Concrete inputs for the further functions *)

Module MoreSamples.

(** The white space a text starts with. *)
Fixpoint leading_space (s : string) : string :=
  match s with
  | EmptyString => EmptyString
  | String c r => if is_space c then String c (leading_space r)
                  else EmptyString
  end.

(** The sentence tokenizer of NLTK starts its first sentence at the first
    character of the text: white space before it stays in that sentence. *)
Definition sent_tokenize (s : string) : list string :=
  match Sample.sent_tokenize s with
  | [] => []
  | first :: rest => (leading_space s +:+ first) :: rest
  end.

Definition summarize : string -> Z -> option string :=
  extractive_summarize Sample.word_tokenize sent_tokenize Sample.STOPWORDS.

(** [Sample.short_text] after one space. *)
Definition indented_text : string := " It rains. We stay home.".

(** The part [{"inlineData": {"mimeType": "image/png", "data": "aGk="}}]. *)
Definition report_part : json :=
  JObj [("inlineData", JObj [("mimeType", JStr "image/png");
                             ("data", JStr Sample.report_b64)])].

(** A part whose data is no base64. *)
Definition broken_part : json :=
  JObj [("inlineData", JObj [("mimeType", JStr "image/png");
                             ("data", JStr "not base64!")])].

Definition prompt_part (p : string) : json := JObj [("text", JStr p)].

(** A text of 60 characters without a word that counts. *)
Definition stopword_text : string :=
  "It is. We are. They were. He was. She is. You are. I am too.".

(** A PDF of three pages: the second raises on extraction, the third is
    blank. *)
Definition three_pages (b : bytes) : Result (list (Result nat)) :=
  Ok [Ok 0%nat; Ok 1%nat; Ok 2%nat].
Definition three_texts (p : nat) : Result (option string) :=
  match p with
  | O => Ok (Some " Invoice 2024 ")
  | S O => Raise LibraryError
  | _ => Ok None
  end.

End MoreSamples.

(** * Properties *)

(** ** Strings *)

Section StringFacts.

Lemma lower_char_alnum c :
  is_ascii_alnum c = true -> is_lower_alnum (lower_char c) = true.
Proof.
  destruct c as [[] [] [] [] [] [] [] []]; vm_compute; congruence.
Qed.

Lemma normalize_word_chars w :
  all_chars is_lower_alnum (normalize_word w) = true.
Proof.
  unfold normalize_word. induction w as [|c w IH]; simpl; [done|].
  destruct (is_ascii_alnum c) eqn:Hc; simpl; [|done].
  by rewrite lower_char_alnum, IH.
Qed.

Lemma strip_empty : strip "" = "".
Proof. done. Qed.

Lemma len_nonneg s : 0 <= len s.
Proof. unfold len. lia. Qed.

End StringFacts.

(** ** Lists and dictionaries *)

Section ListFacts.

Lemma insert_asc_perm x l : insert_asc x l ≡ₚ x :: l.
Proof.
  induction l as [|y l IH]; simpl; [done|].
  destruct (y <? x)%nat; [|done].
  rewrite IH. apply Permutation_swap.
Qed.

Lemma sorted_perm l : sorted l ≡ₚ l.
Proof.
  induction l as [|x l IH]; simpl; [done|].
  by rewrite insert_asc_perm, IH.
Qed.

Lemma insert_asc_sorted x l :
  StronglySorted le l -> StronglySorted le (insert_asc x l).
Proof.
  induction 1 as [|y l Hl IH Hy]; simpl.
  - repeat constructor.
  - destruct (y <? x)%nat eqn:Hyx.
    + apply Nat.ltb_lt in Hyx. constructor; [done|].
      rewrite insert_asc_perm. constructor; [lia|done].
    + apply Nat.ltb_ge in Hyx. constructor.
      * by constructor.
      * constructor; [done|]. eapply Forall_impl; [exact Hy|]. simpl; lia.
Qed.

Lemma sorted_sorted l : StronglySorted le (sorted l).
Proof.
  induction l; simpl; [constructor|]. by apply insert_asc_sorted.
Qed.

(** Without repetitions, ascending is strictly ascending. *)
Lemma sorted_strict l : NoDup l -> StronglySorted lt (sorted l).
Proof.
  intros Hnd. assert (NoDup (sorted l)) as Hnd' by by rewrite sorted_perm.
  pose proof (sorted_sorted l) as Hs.
  induction Hs as [|x r Hr IH Hx]; [constructor|].
  apply NoDup_cons in Hnd' as [Hx' Hnd']. constructor; [by apply IH|].
  apply Forall_forall. intros y Hy.
  pose proof (proj1 (Forall_forall _ _) Hx y Hy).
  assert (x <> y) by (intros ->; done). lia.
Qed.

Lemma insert_desc_perm {A} (x : A * Q) l : insert_desc x l ≡ₚ x :: l.
Proof.
  induction l as [|y l IH]; simpl; [done|].
  destruct (Qltb x.2 y.2); [|done].
  rewrite IH. apply Permutation_swap.
Qed.

Lemma sorted_desc_perm {A} (l : list (A * Q)) : sorted_desc l ≡ₚ l.
Proof.
  induction l as [|x l IH]; simpl; [done|].
  by rewrite insert_desc_perm, IH.
Qed.

Lemma slice_to_sublist {A} k (l : list A) : slice_to k l `sublist_of` l.
Proof. unfold slice_to. destruct (0 <=? k); apply sublist_take. Qed.

Lemma length_slice_to {A} k (l : list A) :
  0 <= k -> length (slice_to k l) = (Z.to_nat k `min` length l)%nat.
Proof.
  intros Hk. unfold slice_to.
  destruct (0 <=? k) eqn:E; [|lia]. by rewrite length_take.
Qed.

(** Picking the elements at strictly ascending positions keeps their
    order: the picked elements are a sublist. *)
Lemma pick_ascending_sublist {A} (l : list A) :
  forall off idxs sel,
    StronglySorted lt idxs ->
    Forall (fun i => (off <= i)%nat) idxs ->
    mapM (fun i => l !! (i - off)%nat) idxs = Some sel ->
    sel `sublist_of` l.
Proof.
  induction l as [|x l IH]; intros off idxs sel Hs Hlo Hsel.
  - destruct idxs as [|i idxs]; simpl in Hsel; [|done].
    injection Hsel as <-. constructor.
  - destruct idxs as [|i idxs].
    { injection Hsel as <-. apply sublist_nil_l. }
    apply StronglySorted_inv in Hs as [Hs Hi].
    apply Forall_cons in Hlo as [Hoi Hlo].
    assert (Forall (fun j => (S off <= j)%nat) idxs) as Hlo'.
    { apply Forall_forall. intros j Hj.
      pose proof (proj1 (Forall_forall _ _) Hi j Hj). simpl in *. lia. }
    assert (forall j, (S off <= j)%nat ->
              (x :: l) !! (j - off)%nat = l !! (j - S off)%nat) as Hshift.
    { intros j Hj. replace (j - off)%nat with (S (j - S off)) by lia. done. }
    assert (mapM (fun j => (x :: l) !! (j - off)%nat) idxs
            = mapM (fun j => l !! (j - S off)%nat) idxs) as Htl.
    { apply Forall_mapM_ext. eapply Forall_impl; [exact Hlo'|].
      intros j Hj. by apply Hshift. }
    destruct (decide (i = off)) as [->|Hne].
    + simpl in Hsel. rewrite Nat.sub_diag in Hsel. simpl in Hsel.
      rewrite Htl in Hsel.
      destruct (mapM _ idxs) as [sel'|] eqn:Hsel'; [|done].
      injection Hsel as <-.
      by apply sublist_skip, (IH (S off) idxs).
    + apply sublist_cons, (IH (S off) (i :: idxs)).
      * by constructor.
      * constructor; [lia|done].
      * rewrite <- Hsel. simpl. rewrite Htl, Hshift by lia. done.
Qed.

End ListFacts.

Section DictFacts.

Context {V : Type}.
Implicit Types d : PyDict.t nat V.

Lemma set_fresh d k v : k ∉ PyDict.keys d -> PyDict.set d k v = d ++ [(k, v)].
Proof.
  unfold PyDict.keys. induction d as [|[k' v'] d IH]; simpl; [done|].
  intros Hk. apply not_elem_of_cons in Hk as [Hne Hk].
  destruct (decide (k' = k)); [congruence|]. by rewrite IH.
Qed.

(** Reading a dictionary back at each of its keys gives its items. *)
Lemma items_by_keys d :
  NoDup (PyDict.keys d) ->
  mapM (fun i => v ← PyDict.get d i; Some (i, v)) (PyDict.keys d) = Some d.
Proof.
  unfold PyDict.keys. induction d as [|[k v] d IH]; csimpl; [done|].
  intros [Hk Hnd]%NoDup_cons.
  destruct (decide (k = k)); [csimpl|done].
  rewrite (Forall_mapM_ext _ (fun i => v ← PyDict.get d i; Some (i, v))).
  - by rewrite (IH Hnd).
  - apply Forall_forall. intros j Hj. simpl.
    destruct (decide (k = j)) as [->|]; done.
Qed.

Lemma get_zip_seq (vs : list V) a i :
  PyDict.get (zip (seq a (length vs)) vs) (a + i)%nat = vs !! i.
Proof.
  revert a i. induction vs as [|v vs IH]; intros a i; simpl; [done|].
  destruct (decide (a = (a + i)%nat)) as [E|E].
  - assert (i = 0%nat) as -> by lia. done.
  - destruct i as [|i]; [lia|]. simpl.
    replace (a + S i)%nat with (S a + i)%nat by lia. apply IH.
Qed.

Lemma keys_zip_seq (vs : list V) a :
  PyDict.keys (zip (seq a (length vs)) vs) = seq a (length vs).
Proof. unfold PyDict.keys. apply fst_zip. by rewrite length_seq. Qed.

End DictFacts.

(** ** The frequency model and the sentence scores *)

Section SummarizerFacts.

Context (word_tokenize sent_tokenize : string -> list string).
Context (STOPWORDS : gset string).

Local Abbreviation count_word := (count_word STOPWORDS).
Local Abbreviation build_word_freq := (build_word_freq word_tokenize STOPWORDS).
Local Abbreviation frequency_model := (frequency_model STOPWORDS).
Local Abbreviation score_sentences := (score_sentences word_tokenize).
Local Abbreviation extractive_summarize :=
  (extractive_summarize word_tokenize sent_tokenize STOPWORDS).

Lemma frequency_model_empty : frequency_model ∅.
Proof. intros k v Hk. by rewrite lookup_empty in Hk. Qed.

Lemma count_word_model freq w :
  frequency_model freq -> frequency_model (count_word freq w).
Proof.
  intros Hfm. unfold count_word.
  destruct (decide (normalize_word w = "")) as [|Hne]; [done|].
  destruct (decide (normalize_word w ∈ STOPWORDS)) as [|Hstop]; [done|].
  intros k v. rewrite lookup_insert.
  destruct (decide (normalize_word w = k)) as [<-|]; [|apply Hfm].
  intros [= <-]. repeat split; [done|apply normalize_word_chars|done|].
  destruct (freq !! normalize_word w) as [c|] eqn:Hc; simpl; [|lia].
  apply Hfm in Hc. lia.
Qed.

Lemma foldl_count_word_model ws freq :
  frequency_model freq -> frequency_model (foldl count_word freq ws).
Proof.
  revert freq. induction ws as [|w ws IH]; intros freq Hfm; simpl; [done|].
  by apply IH, count_word_model.
Qed.

Lemma build_word_freq_model text : frequency_model (build_word_freq text).
Proof. apply foldl_count_word_model, frequency_model_empty. Qed.

(** The scores, in closed form: sentence [i] is paired with its score. *)
Lemma score_sentences_items sentences freq :
  score_sentences sentences freq
  = zip (seq 0 (length sentences))
        ((fun s => sentence_score freq (word_tokenize s)) <$> sentences).
Proof.
  unfold score_sentences, enumerate, PyDict.empty.
  set (f := fun s => sentence_score freq (word_tokenize s)).
  enough (forall l a (d : PyDict.t nat Q),
            Forall (fun k => (k < a)%nat) (PyDict.keys d) ->
            foldl (fun scores '(idx, sent) => PyDict.set scores idx (f sent))
                  d (zip (seq a (length l)) l)
            = d ++ zip (seq a (length l)) (f <$> l)) as H.
  { apply (H sentences 0%nat []). constructor. }
  induction l as [|s l IH]; intros a d Hd; simpl.
  - by rewrite app_nil_r.
  - rewrite set_fresh.
    + rewrite IH; [by rewrite <- app_assoc|].
      unfold PyDict.keys. rewrite fmap_app. apply Forall_app. split.
      * eapply Forall_impl; [exact Hd|]. simpl; lia.
      * repeat constructor.
    + intros Ha. apply (proj1 (Forall_forall _ _) Hd) in Ha. lia.
Qed.

Lemma score_sentences_keys sentences freq :
  PyDict.keys (score_sentences sentences freq) = seq 0 (length sentences).
Proof.
  rewrite score_sentences_items.
  rewrite <- (length_fmap (fun s => sentence_score freq (word_tokenize s))).
  apply keys_zip_seq.
Qed.

Lemma score_sentences_get sentences freq i :
  PyDict.get (score_sentences sentences freq) i
  = (fun s => sentence_score freq (word_tokenize s)) <$> sentences !! i.
Proof.
  rewrite score_sentences_items.
  rewrite <- (length_fmap (fun s => sentence_score freq (word_tokenize s))).
  rewrite (get_zip_seq _ 0 i). apply list_lookup_fmap.
Qed.

End SummarizerFacts.

(** ** The summarizer *)

Section SummarizerTheorems.

Context (word_tokenize sent_tokenize : string -> list string).
Context (STOPWORDS : gset string).

Local Abbreviation build_word_freq :=
  (build_word_freq word_tokenize STOPWORDS).
Local Abbreviation frequency_model := (frequency_model STOPWORDS).
Local Abbreviation score_sentences := (score_sentences word_tokenize).
Local Abbreviation extractive_summarize :=
  (extractive_summarize word_tokenize sent_tokenize STOPWORDS).

Lemma length_slice_to_eq {A B} k (l1 : list A) (l2 : list B) :
  length l1 = length l2 -> length (slice_to k l1) = length (slice_to k l2).
Proof.
  intros E. unfold slice_to. destruct (0 <=? k); rewrite !length_take; lia.
Qed.

(** Lines 151-153 for an arbitrary ranking of the indices: the first
    [max_sentences] of the ranking, sorted, pick a sublist of the
    sentences. *)
Lemma selection_any_ranking (sentences : list string) ranking k :
  ranking ≡ₚ seq 0 (length sentences) ->
  exists sel,
    mapM (fun i => sentences !! i) (sorted (slice_to k ranking)) = Some sel
    /\ sel `sublist_of` sentences
    /\ length sel = length (slice_to k sentences).
Proof.
  intros Hperm. set (top_idxs := slice_to k ranking).
  assert (top_idxs `sublist_of` ranking) as Hsub by apply slice_to_sublist.
  assert (NoDup top_idxs) as Hnd.
  { apply (sublist_NoDup _ ranking); [|done]. rewrite Hperm. apply NoDup_seq. }
  assert (Forall (fun i => (i < length sentences)%nat) (sorted top_idxs))
    as Hrange.
  { apply Forall_forall. intros i Hi. rewrite sorted_perm in Hi.
    eapply elem_of_sublist in Hi; [|exact Hsub].
    rewrite Hperm in Hi. apply elem_of_seq in Hi. lia. }
  destruct (mapM (fun i => sentences !! i) (sorted top_idxs))
    as [sel|] eqn:Hsel.
  - exists sel. split; [done|]. split.
    + apply (pick_ascending_sublist sentences 0 (sorted top_idxs)).
      * by apply sorted_strict.
      * apply Forall_forall. intros; lia.
      * rewrite <- Hsel. apply mapM_ext. intros i. by rewrite Nat.sub_0_r.
    + apply length_mapM in Hsel. rewrite <- Hsel.
      rewrite (Permutation_length (sorted_perm top_idxs)).
      apply length_slice_to_eq.
      rewrite (Permutation_length Hperm). apply length_seq.
  - exfalso. apply mapM_None in Hsel. apply Exists_exists in Hsel.
    destruct Hsel as (i & Hi & Hnone).
    apply (proj1 (Forall_forall _ _) Hrange) in Hi.
    apply lookup_lt_is_Some_2 in Hi. rewrite Hnone in Hi. by destruct Hi.
Qed.

(** The ranked branch of the summarizer (lines 150-154): whatever the
    scores, the selected sentences are a sublist of the sentences, as many
    as the slice [[:max_sentences]] keeps. *)
Lemma ranked_selection sentences freq k :
  exists sel,
    (keyed ← mapM (fun i => v ← PyDict.get (score_sentences sentences freq) i;
                            Some (i, v))
                  (PyDict.keys (score_sentences sentences freq));
     selected ← mapM (fun i => sentences !! i)
                     (sorted (slice_to k (sorted_desc keyed).*1));
     Some (join blank_line selected)) = Some (join blank_line sel)
    /\ sel `sublist_of` sentences
    /\ length sel = length (slice_to k sentences).
Proof.
  set (scores := score_sentences sentences freq).
  assert (PyDict.keys scores = seq 0 (length sentences)) as Hkeys
    by apply score_sentences_keys.
  rewrite items_by_keys by (rewrite Hkeys; apply NoDup_seq).
  cbn [mbind option_bind].
  destruct (selection_any_ranking sentences (sorted_desc scores).*1 k)
    as (sel & Hsel & Hsub & Hlen).
  { rewrite sorted_desc_perm. by rewrite <- Hkeys. }
  exists sel. split; [|done]. by rewrite Hsel.
Qed.

(** The three ways the summarizer returns. *)
Lemma extractive_summarize_cases text k :
  exists out,
    extractive_summarize text k = Some out
    /\ (len (strip text) < 50 /\ out = strip text
        \/ 50 <= len (strip text)
           /\ exists sel,
                sel `sublist_of` sent_tokenize text
                /\ out = join blank_line sel
                /\ (Z.of_nat (length (sent_tokenize text)) <= k ->
                    sel = sent_tokenize text)
                /\ (k < Z.of_nat (length (sent_tokenize text)) ->
                    length sel = length (slice_to k (sent_tokenize text)))).
Proof.
  unfold extractive_summarize.
  destruct (decide (text = "")) as [->|Hne].
  { exists (strip ""). split; [done|]. left. split; [by vm_compute|done]. }
  destruct (len (strip text) <? 50) eqn:Hlen.
  { apply Z.ltb_lt in Hlen. eexists. split; [done|]. by left. }
  apply Z.ltb_ge in Hlen.
  set (sentences := sent_tokenize text).
  destruct (Z.of_nat (length sentences) <=? k) eqn:Hcount.
  { apply Z.leb_le in Hcount. eexists. split; [done|]. right.
    split; [done|]. exists sentences. repeat split; [done|lia]. }
  apply Z.leb_gt in Hcount.
  destruct (decide (build_word_freq text = ∅)) as [Hempty|Hfreq].
  { eexists. split; [done|]. right. split; [done|].
    exists (slice_to k sentences).
    repeat split; [apply slice_to_sublist|lia]. }
  destruct (ranked_selection sentences (build_word_freq text) k)
    as (sel & Hrun & Hsub & Hlength).
  exists (join blank_line sel). split; [exact Hrun|]. right. split; [done|].
  exists sel. repeat split; [done|lia|done].
Qed.

(** The summarizer never fails: its lookups stay in range. *)
Lemma extractive_summarize_total text k :
  is_Some (extractive_summarize text k).
Proof. destruct (extractive_summarize_cases text k) as (out & -> & _). done. Qed.

(** C1, amended.  For every text whose trimmed length is at least 50 and
    every [max_sentences >= 1], the summarizer returns the join, by a blank
    line, of sentences that form a sublist of the sentences of the text:
    they come in the order of the text.  The order of the ranking plays no
    part: for any ranking of the sentence indices, the first
    [max_sentences] of it, sorted as the code sorts them, pick a sublist of
    the sentences. *)
Theorem summary_preserves_order text max_sentences :
  1 <= max_sentences ->
  50 <= len (strip text) ->
  (exists sel,
     extractive_summarize text max_sentences = Some (join blank_line sel)
     /\ sel `sublist_of` sent_tokenize text)
  /\ (forall ranking,
        ranking ≡ₚ seq 0 (length (sent_tokenize text)) ->
        exists sel,
          mapM (fun i => sent_tokenize text !! i)
               (sorted (slice_to max_sentences ranking)) = Some sel
          /\ sel `sublist_of` sent_tokenize text).
Proof.
  intros _ Hlong. split.
  - destruct (extractive_summarize_cases text max_sentences)
      as (out & Hout & [[Hshort _] | (_ & sel & Hsub & -> & _)]); [lia|].
    by exists sel.
  - intros ranking Hperm.
    destruct (selection_any_ranking (sent_tokenize text) ranking
                max_sentences Hperm) as (sel & Hsel & Hsub & _).
    by exists sel.
Qed.

(** C2, amended.  For every text whose trimmed length is at least 50 and
    every [max_sentences >= 1]: with [max_sentences] sentences or fewer the
    summarizer returns all of them joined by a blank line; with more, it
    returns at most [max_sentences] of them, joined by a blank line. *)
Theorem summary_respects_bound text max_sentences :
  1 <= max_sentences ->
  50 <= len (strip text) ->
  (Z.of_nat (length (sent_tokenize text)) <= max_sentences ->
   extractive_summarize text max_sentences
   = Some (join blank_line (sent_tokenize text)))
  /\ (max_sentences < Z.of_nat (length (sent_tokenize text)) ->
      exists sel,
        extractive_summarize text max_sentences = Some (join blank_line sel)
        /\ sel `sublist_of` sent_tokenize text
        /\ Z.of_nat (length sel) <= max_sentences).
Proof.
  intros Hk Hlong.
  destruct (extractive_summarize_cases text max_sentences)
    as (out & Hout & [[Hshort _] | (_ & sel & Hsub & -> & Hall & Hmore)]);
    [lia|].
  split.
  - intros Hfew. by rewrite Hout, (Hall Hfew).
  - intros Hmany. exists sel. repeat split; [done|done|].
    rewrite (Hmore Hmany), length_slice_to by lia. lia.
Qed.

(** C3.  A text whose trimmed length is below 50 is returned trimmed,
    whatever [max_sentences >= 1] is. *)
Theorem short_input_passthrough text max_sentences :
  len (strip text) < 50 ->
  1 <= max_sentences ->
  extractive_summarize text max_sentences = Some (strip text).
Proof.
  intros Hshort _. unfold extractive_summarize.
  destruct (decide (text = "")); [done|].
  apply Z.ltb_lt in Hshort. by rewrite Hshort.
Qed.

End SummarizerTheorems.

Section ScorerTheorems.

Context (word_tokenize : string -> list string).
Context (STOPWORDS : gset string).

Local Abbreviation build_word_freq :=
  (build_word_freq word_tokenize STOPWORDS).
Local Abbreviation frequency_model := (frequency_model STOPWORDS).
Local Abbreviation score_sentences := (score_sentences word_tokenize).

Lemma foldl_add_word freq ws acc :
  freq !! "" = None ->
  foldl (add_word freq) acc ws = acc + foldr Z.add 0 (known_count freq <$> ws).
Proof.
  intros Hblank. revert acc.
  induction ws as [|w ws IH]; intros acc; csimpl; [lia|].
  rewrite IH. unfold add_word, known_count.
  destruct (decide (normalize_word w = "")) as [->|]; [|lia].
  rewrite Hblank. simpl. lia.
Qed.

Lemma frequency_model_blank freq : frequency_model freq -> freq !! "" = None.
Proof.
  intros Hfm. destruct (freq !! "") as [v|] eqn:Hv; [|done].
  by apply Hfm in Hv as [? _].
Qed.

Lemma known_count_nonneg freq w : frequency_model freq -> 0 <= known_count freq w.
Proof.
  intros Hfm. unfold known_count.
  destruct (freq !! normalize_word w) as [v|] eqn:Hv; simpl; [|lia].
  apply Hfm in Hv. lia.
Qed.

Lemma sum_counts_nonneg freq ws : frequency_model freq -> 0 <= sum_counts freq ws.
Proof.
  intros Hfm. unfold sum_counts.
  rewrite foldl_add_word by by apply frequency_model_blank.
  induction ws as [|w ws IH]; csimpl; [lia|].
  pose proof (known_count_nonneg freq w Hfm). lia.
Qed.

Lemma sentence_score_spec freq ws :
  frequency_model freq ->
  (sentence_score freq ws == spec_sentence_score freq ws)%Q.
Proof.
  intros Hfm. unfold sentence_score, spec_sentence_score, sum_counts.
  rewrite foldl_add_word by by apply frequency_model_blank.
  rewrite Z.add_0_l, Qmake_Qdiv.
  replace (Z.pos (Pos.of_succ_nat (length ws))) with (Z.of_nat (length ws) + 1)
    by lia.
  reflexivity.
Qed.

(** Appending a token that adds nothing to the sum. *)
Lemma sum_counts_snoc freq ws p :
  normalize_word p = "" \/ freq !! normalize_word p = None ->
  sum_counts freq (ws ++ [p]) = sum_counts freq ws.
Proof.
  intros Hp. unfold sum_counts. rewrite foldl_app. simpl. unfold add_word at 1.
  destruct (decide (normalize_word p = "")) as [|Hne]; [done|].
  destruct Hp as [ | -> ]; [done|]. simpl. lia.
Qed.

Lemma sentence_score_snoc_lt freq ws p :
  sum_counts freq (ws ++ [p]) = sum_counts freq ws ->
  (0 < sentence_score freq ws)%Q ->
  (sentence_score freq (ws ++ [p]) < sentence_score freq ws)%Q.
Proof.
  unfold sentence_score. intros ->. unfold Qlt. simpl.
  rewrite length_app. simpl. nia.
Qed.

(** C5.  For a frequency model [freq], the scores have one entry per
    sentence, under the indices [0 .. n-1] in this order; the entry of
    sentence [i] is the sum of the counts of its normalized tokens (0 for a
    token the model does not know) divided by the number of its tokens plus
    one; it is not negative, and it is 0 for a sentence without tokens. *)
Theorem score_sentences_spec sentences freq :
  frequency_model freq ->
  PyDict.keys (score_sentences sentences freq) = seq 0 (length sentences)
  /\ forall i s, sentences !! i = Some s ->
       exists q,
         PyDict.get (score_sentences sentences freq) i = Some q
         /\ (q == spec_sentence_score freq (word_tokenize s))%Q
         /\ (0 <= q)%Q
         /\ (word_tokenize s = [] -> q == 0)%Q.
Proof.
  intros Hfm. split; [apply score_sentences_keys|].
  intros i s Hs. exists (sentence_score freq (word_tokenize s)).
  split; [by rewrite score_sentences_get, Hs|].
  split; [by apply sentence_score_spec|]. split.
  - unfold sentence_score, Qle. simpl.
    pose proof (sum_counts_nonneg freq (word_tokenize s) Hfm). lia.
  - intros ->. reflexivity.
Qed.

(** C6.  Every key of the frequency model built from a text is no
    stopword, is not empty, consists of lowercase ASCII letters and digits
    only, and has a positive count. *)
Theorem build_word_freq_keys text k v :
  build_word_freq text !! k = Some v ->
  (k ∉ STOPWORDS)
  /\ k <> ""
  /\ all_chars is_lower_alnum k = true
  /\ 0 < v.
Proof.
  intros Hk. apply build_word_freq_model in Hk as (? & ? & ? & ?). done.
Qed.

(** C10.  The denominator of a score is the number of raw tokens plus one.
    A token whose normalization is empty, or is a stopword (which a
    frequency model never knows), adds one to the denominator and nothing
    to the sum: the sentence with such a token appended scores strictly
    less whenever its score was positive. *)
Theorem silent_token_lowers_score freq sentences sentences' i s s' p :
  sentences !! i = Some s ->
  sentences' !! i = Some s' ->
  word_tokenize s' = word_tokenize s ++ [p] ->
  normalize_word p = ""
  \/ normalize_word p ∈ STOPWORDS /\ frequency_model freq ->
  exists q q',
    PyDict.get (score_sentences sentences freq) i = Some q
    /\ PyDict.get (score_sentences sentences' freq) i = Some q'
    /\ Z.pos (Qden q) = Z.of_nat (length (word_tokenize s)) + 1
    /\ Z.pos (Qden q') = Z.of_nat (length (word_tokenize s)) + 2
    /\ Qnum q' = Qnum q
    /\ (0 < q -> q' < q)%Q.
Proof.
  intros Hs Hs' Htok Hp.
  assert (sum_counts freq (word_tokenize s ++ [p])
          = sum_counts freq (word_tokenize s)) as Hsum.
  { apply sum_counts_snoc. destruct Hp as [Hp|[Hstop Hfm]]; [by left|right].
    destruct (freq !! normalize_word p) as [v|] eqn:Hv; [|done].
    by apply Hfm in Hv as (_ & _ & ? & _). }
  exists (sentence_score freq (word_tokenize s)),
         (sentence_score freq (word_tokenize s')).
  split; [by rewrite score_sentences_get, Hs|].
  split; [by rewrite score_sentences_get, Hs'|].
  rewrite Htok. repeat split.
  - simpl. lia.
  - simpl. rewrite length_app. simpl. lia.
  - simpl. done.
  - by apply sentence_score_snoc_lt.
Qed.

End ScorerTheorems.

(** ** What the summarizer asks of the libraries

    The result depends on the tokenizers only through the sentences of the
    text and the words of the text and of each sentence, and on the stopword
    set only through the normalized words of the text. *)

Section Frame.

Context (wt wt' st st' : string -> list string) (SW SW' : gset string).

Local Abbreviation same_stopword := (same_stopword SW SW').

Lemma same_stopword_blank w : normalize_word w = "" -> same_stopword w.
Proof. intros Hw Hne. done. Qed.

Lemma same_stopword_in w :
  normalize_word w ∈ SW -> normalize_word w ∈ SW' -> same_stopword w.
Proof. intros ? ? _. done. Qed.

Lemma same_stopword_out w :
  normalize_word w ∉ SW -> normalize_word w ∉ SW' -> same_stopword w.
Proof. intros ? ? _. split; intros; done. Qed.

Lemma foldl_count_word_ext ws freq :
  Forall same_stopword ws ->
  foldl (count_word SW) freq ws = foldl (count_word SW') freq ws.
Proof.
  intros Hws. revert freq.
  induction Hws as [|w ws Hw Hws IH]; intros freq; simpl; [done|].
  rewrite <- IH. f_equal. unfold count_word.
  destruct (decide (normalize_word w = "")) as [|Hne]; [done|].
  destruct (Hw Hne) as [H1 H2].
  destruct (decide (normalize_word w ∈ SW)), (decide (normalize_word w ∈ SW'));
    done || (exfalso; auto).
Qed.

Lemma score_sentences_ext sentences freq :
  Forall (fun s => wt s = wt' s) sentences ->
  score_sentences wt sentences freq = score_sentences wt' sentences freq.
Proof.
  intros Hs. rewrite !score_sentences_items. f_equal.
  apply Forall_fmap_ext. eapply Forall_impl; [exact Hs|].
  intros s Heq. simpl. by rewrite Heq.
Qed.

Lemma extractive_summarize_ext text k :
  st text = st' text ->
  wt text = wt' text ->
  Forall (fun s => wt s = wt' s) (st text) ->
  Forall same_stopword (wt text) ->
  extractive_summarize wt st SW text k = extractive_summarize wt' st' SW' text k.
Proof.
  intros Hst Hwt Hsents Hstop. unfold extractive_summarize.
  assert (build_word_freq wt SW text = build_word_freq wt' SW' text) as Hfreq.
  { unfold build_word_freq. rewrite <- Hwt. by apply foldl_count_word_ext. }
  rewrite <- Hst, <- Hfreq.
  by rewrite (score_sentences_ext (st text) (build_word_freq wt SW text)).
Qed.

End Frame.

Lemma sample_stopword w : w ∈ Sample.STOPWORDS <-> w ∈ Sample.english_stopwords.
Proof. unfold Sample.STOPWORDS. by rewrite elem_of_list_to_set. Qed.

Ltac decide_elem := apply (bool_decide_unpack _); vm_compute; exact I.

Section Scenario.

Context (word_tokenize sent_tokenize : string -> list string).
Context (STOPWORDS : gset string).

(** C4, amended.  On the text of the scenario, segmented and tokenized as
    NLTK does, with [max_sentences = 2], the summarizer returns the first
    and the fourth sentence: ["Cats are mammals.\n\nWater boils at 100
    degrees."].  The scores are 3/5, 3/6, 2/6 and 4/7. *)
Theorem mammals_scenario :
  sent_tokenize Sample.mammals_text = Sample.mammals_sentences ->
  word_tokenize Sample.mammals_text
  = [ "Cats"; "are"; "mammals"; "."; "Dogs"; "are"; "mammals"; "too"; ".";
      "The"; "sky"; "is"; "blue"; "."; "Water"; "boils"; "at"; "100";
      "degrees"; "." ] ->
  word_tokenize <$> Sample.mammals_sentences
  = [ [ "Cats"; "are"; "mammals"; "." ];
      [ "Dogs"; "are"; "mammals"; "too"; "." ];
      [ "The"; "sky"; "is"; "blue"; "." ];
      [ "Water"; "boils"; "at"; "100"; "degrees"; "." ] ] ->
  Forall (fun w => w ∈ STOPWORDS) [ "are"; "too"; "the"; "is"; "at" ] ->
  Forall (fun w => w ∉ STOPWORDS)
    [ "cats"; "mammals"; "dogs"; "sky"; "blue"; "water"; "boils"; "100";
      "degrees" ] ->
  score_sentences word_tokenize (sent_tokenize Sample.mammals_text)
    (build_word_freq word_tokenize STOPWORDS Sample.mammals_text)
  = [ (0%nat, 3 # 5); (1%nat, 3 # 6); (2%nat, 2 # 6); (3%nat, 4 # 7) ]%Q
  /\ extractive_summarize word_tokenize sent_tokenize STOPWORDS
       Sample.mammals_text 2
     = Some Sample.mammals_summary.
Proof.
  intros Hsent Hwords Hsw Hstop Hcontent.
  assert (Forall (fun s => word_tokenize s = Sample.word_tokenize s)
            (sent_tokenize Sample.mammals_text)) as Hsents.
  { rewrite Hsent. unfold Sample.mammals_sentences in *.
    injection Hsw as H0 H1 H2 H3.
    repeat constructor; [rewrite H0|rewrite H1|rewrite H2|rewrite H3];
      by vm_compute. }
  assert (Forall (same_stopword STOPWORDS Sample.STOPWORDS)
            (word_tokenize Sample.mammals_text)) as Hsame.
  { rewrite Hwords.
    repeat (apply Forall_cons_2); try apply Forall_nil_2;
      first
        [ apply same_stopword_blank; vm_compute; reflexivity
        | apply same_stopword_in;
          [ apply (proj1 (Forall_forall (fun w => w ∈ STOPWORDS) _) Hstop)
          | apply sample_stopword ];
          decide_elem
        | apply same_stopword_out;
          [ apply (proj1 (Forall_forall (fun w => w ∉ STOPWORDS) _) Hcontent)
          | rewrite sample_stopword ];
          decide_elem ]. }
  split.
  - rewrite (score_sentences_ext word_tokenize Sample.word_tokenize _ _ Hsents).
    rewrite Hsent.
    unfold build_word_freq. rewrite Hwords.
  rewrite (foldl_count_word_ext STOPWORDS Sample.STOPWORDS); [by vm_compute|].
    by rewrite <- Hwords.
  - rewrite (extractive_summarize_ext word_tokenize Sample.word_tokenize
               sent_tokenize Sample.sent_tokenize STOPWORDS Sample.STOPWORDS);
      [by vm_compute| by rewrite Hsent | by rewrite Hwords | done | done].
Qed.

End Scenario.

(** ** The extraction cascade *)

Section ExtractionTheorems.

Context (page : Type).
Context (PdfReader_pages : bytes -> Result (list (Result page))).
Context (page_extract_text : page -> Result (option string)).
Context (image : Type).
Context (Image_open_convert : bytes -> Result image).
Context (image_to_string : image -> Result string).

Local Abbreviation page_text := (page_text page page_extract_text).
Local Abbreviation collect_pages := (collect_pages page page_extract_text).
Local Abbreviation extract_text_from_pdf_bytes :=
  (extract_text_from_pdf_bytes page PdfReader_pages page_extract_text).
Local Abbreviation extract_text_from_image_bytes :=
  (extract_text_from_image_bytes image Image_open_convert image_to_string).
Local Abbreviation extract_text :=
  (extract_text page PdfReader_pages page_extract_text image
     Image_open_convert image_to_string).

Lemma try_except_ok {A} (body : Result A) (dflt : A) :
  try_except body (fun _ => Ok dflt)
  = Ok (match body with Ok a => a | Raise _ => dflt end).
Proof. by destruct body. Qed.

Lemma pdf_text_ok b :
  extract_text_from_pdf_bytes b
  = Ok match PdfReader_pages b with
       | Raise _ => ""
       | Ok pages =>
           match collect_pages pages [] with
           | Raise _ => ""
           | Ok texts => strip (join newline texts)
           end
       end.
Proof.
  unfold extract_text_from_pdf_bytes. rewrite try_except_ok. f_equal.
  destruct (PdfReader_pages b) as [pages|]; [|done]. csimpl.
  unfold mbind, Result_bind. by destruct (collect_pages pages []).
Qed.

Lemma image_text_ok b :
  extract_text_from_image_bytes b
  = Ok match Image_open_convert b with
       | Raise _ => ""
       | Ok img =>
           match image_to_string img with
           | Raise _ => ""
           | Ok text => strip text
           end
       end.
Proof.
  unfold extract_text_from_image_bytes, try_except, mbind, Result_bind.
  destruct (Image_open_convert b) as [img|[]]; try done.
  by destruct (image_to_string img) as [text|[]].
Qed.

(** A page whose extraction raises, or yields nothing, is left out; the
    pages after it are still read. *)
Lemma collect_pages_all ps texts :
  collect_pages (Ok <$> ps) texts
  = Ok (texts ++ filter (fun t => t <> "") (page_text <$> ps)).
Proof.
  revert texts. induction ps as [|p ps IH]; intros texts; csimpl.
  - by rewrite app_nil_r.
  - rewrite IH. destruct (decide (page_text p = "")) as [E|E].
    + by rewrite filter_cons_False by (by intros ?).
    + by rewrite filter_cons_True, <- app_assoc by done.
Qed.

Lemma pdf_type_not_image mime :
  is_pdf_type mime = true -> startswith mime "image/" = false.
Proof.
  unfold is_pdf_type. intros [H|H]%orb_true_iff;
    apply bool_decide_eq_true in H; by subst.
Qed.

(** C8.  The extractor returns a string for every declared type and every
    bytes, whatever the libraries raise.  The PDF strategy and the image
    strategy each return the empty string when the library under them
    raises; a page whose extraction raises, or yields nothing, is left out
    and the pages after it are still read; and the cascade goes on to the
    image strategy when the PDF strategy found no text. *)
Theorem extract_text_never_raises mime_type file_bytes :
  exists pdf img,
    extract_text_from_pdf_bytes file_bytes = Ok pdf
    /\ extract_text_from_image_bytes file_bytes = Ok img
    /\ extract_text mime_type file_bytes
       = Ok (if is_pdf_type mime_type
             then (if decide (pdf = "") then img else pdf)
             else if startswith mime_type "image/" then img
             else if decide (pdf = "") then img else pdf)
    /\ pdf = match PdfReader_pages file_bytes with
             | Raise _ => ""
             | Ok pages =>
                 match collect_pages pages [] with
                 | Raise _ => ""
                 | Ok texts => strip (join newline texts)
                 end
             end
    /\ img = match Image_open_convert file_bytes with
             | Raise _ => ""
             | Ok i =>
                 match image_to_string i with
                 | Raise _ => ""
                 | Ok text => strip text
                 end
             end
    /\ (forall ps texts,
          collect_pages (Ok <$> ps) texts
          = Ok (texts ++ filter (fun t => t <> "") (page_text <$> ps)))
    /\ (forall p,
          page_text p = match page_extract_text p with
                        | Ok (Some txt) => txt
                        | Ok None => ""
                        | Raise _ => ""
                        end).
Proof.
  eexists _, _. split; [apply pdf_text_ok|]. split; [apply image_text_ok|].
  split; [|split; [done|split; [done|split; [apply collect_pages_all|done]]]].
  unfold extract_text. rewrite !pdf_text_ok, !image_text_ok.
  set (pdf := match PdfReader_pages file_bytes with
              | Ok pages => _ | Raise _ => _ end).
  set (img := match Image_open_convert file_bytes with
              | Ok i => _ | Raise _ => _ end).
  destruct (is_pdf_type mime_type) eqn:Hpdf; csimpl.
  - destruct (decide (pdf = "")) as [E|E]; csimpl; [|done].
    rewrite (pdf_type_not_image _ Hpdf).
    destruct (decide (pdf = "")); done.
  - destruct (startswith mime_type "image/"); [done|].
    destruct (decide (pdf = "")); done.
Qed.

End ExtractionTheorems.

(** ** The route *)

Section RouteTheorems.

Context (word_tokenize sent_tokenize : string -> list string).
Context (STOPWORDS : gset string).
Context (page : Type).
Context (PdfReader_pages : bytes -> Result (list (Result page))).
Context (page_extract_text : page -> Result (option string)).
Context (image : Type).
Context (Image_open_convert : bytes -> Result image).
Context (image_to_string : image -> Result string).
Context (b64decode : string -> option bytes).

Local Abbreviation extractive_summarize :=
  (extractive_summarize word_tokenize sent_tokenize STOPWORDS).
Local Abbreviation extract_text :=
  (extract_text page PdfReader_pages page_extract_text image
     Image_open_convert image_to_string).
Local Abbreviation scan_contents := (scan_contents b64decode).
Local Abbreviation summarize_route :=
  (summarize_route word_tokenize sent_tokenize STOPWORDS page PdfReader_pages
     page_extract_text image Image_open_convert image_to_string b64decode).

Lemma bind_Ok {A B} (m : Result A) (f : A -> Result B) b :
  (a ← m; f a) = Ok b -> exists a, m = Ok a /\ f a = Ok b.
Proof. destruct m as [a|]; [|done]. intros. by exists a. Qed.


(** A summary response, traced back through the route: the scan of the
    request, the file it found, the type it passed to the extractor, the
    text extracted, and the text summarized. *)
Lemma summary_response_inv request summary n m :
  summarize_route request = Ok (SummaryResponse summary n m) ->
  exists payload contents st file mime extracted,
    request = Some payload
    /\ json_get payload "contents" JNull = Ok (JArr contents)
    /\ scan_contents (ScanState None JNull JNull) contents = Ok st
    /\ file_bytes st = Some file
    /\ py_or (mime_type st) (JStr "") = JStr mime
    /\ extract_text mime file = Ok extracted
    /\ extracted <> ""
    /\ n = len extracted
    /\ m = py_or (mime_type st) (JStr "unknown")
    /\ contents <> [] /\ file <> []
    /\ exists combined,
         combined_text (prompt_text st) extracted = Ok combined
         /\ extractive_summarize combined 4 = Some summary.
Proof.
  unfold summarize_route. intros H.
  apply bind_Ok in H as (payload & Hreq & H).
  destruct request as [p|]; [|done]. injection Hreq as ->.
  apply bind_Ok in H as (contents & Hcontents & H).
  apply bind_Ok in H as (items & Hitems & H).
  destruct contents as [ | | | |[|c cs]| ]; try done. injection Hitems as <-.
  apply bind_Ok in H as (st & Hscan & H).
  apply bind_Ok in H as (fb & Hfb & H).
  assert (file_bytes st = Some fb /\ fb <> []) as [Hfile Hfb']
    by (destruct (file_bytes st) as [[|b bs]|]; split; congruence).
  apply bind_Ok in H as (extracted & Hextract & H).
  destruct (py_or (mime_type st) (JStr "")) as [ | | |mime| | ] eqn:Hmime;
    try done.
  exists payload, (c :: cs), st, fb, mime, extracted.
  do 6 (split; [done|]).
  destruct (decide (extracted = "")) as [E|E]; [done|].
  apply bind_Ok in H as (combined & Hcombined & H).
  apply bind_Ok in H as (s & Hs & H).
  destruct (extractive_summarize combined 4) as [s'|] eqn:Hsum; [|done].
  injection Hs as ->. injection H as -> -> ->.
  do 5 (split; [done|]). by exists combined.
Qed.


(** C7, amended.  Let the scan of the request end in a state [st] whose
    prompt is a non-empty string [p].  Then the route answers with a
    summary exactly when the scan found a non-empty file and the text
    [extracted] from it is not empty, and the summary is the result of the
    summarizer, with [max_sentences = 4], on [p], a blank line and
    [extracted].  So the frequency model is built from that whole text,
    and the sentences of the summary are drawn from the segmentation of
    that whole text: those of the prompt are candidates like the others. *)
Theorem prompt_joins_the_text payload contents st p :
  json_get payload "contents" JNull = Ok (JArr contents) ->
  scan_contents (ScanState None JNull JNull) contents = Ok st ->
  prompt_text st = JStr p ->
  p <> "" ->
  (forall summary n m,
     summarize_route (Some payload) = Ok (SummaryResponse summary n m)
     <-> exists file mime extracted,
           contents <> [] /\ file_bytes st = Some file /\ file <> []
           /\ py_or (mime_type st) (JStr "") = JStr mime
           /\ extract_text mime file = Ok extracted
           /\ extracted <> ""
           /\ extractive_summarize (p +:+ blank_line +:+ extracted) 4
              = Some summary
           /\ n = len extracted
           /\ m = py_or (mime_type st) (JStr "unknown"))
  /\ (forall extracted summary,
        extractive_summarize (p +:+ blank_line +:+ extracted) 4
        = Some summary ->
        len (strip (p +:+ blank_line +:+ extracted)) < 50
        /\ summary = strip (p +:+ blank_line +:+ extracted)
        \/ exists sel,
             sel `sublist_of` sent_tokenize (p +:+ blank_line +:+ extracted)
             /\ summary = join blank_line sel).
Proof.
  intros Hcontents Hscan Hprompt Hp.
  assert (forall extracted,
            combined_text (prompt_text st) extracted
            = Ok (p +:+ blank_line +:+ extracted)) as Hcombined.
  { intros extracted. unfold combined_text. rewrite Hprompt. simpl.
    by rewrite bool_decide_eq_false_2. }
  split.
  - intros summary n m. split.
    + intros H. apply summary_response_inv in H
        as (payload' & contents' & st' & file & mime & extracted & [= <-]
            & Hcontents' & Hscan' & Hfile & Hmime & Hext & Hne & Hn & Hm
            & Hc & Hf & combined & Hcomb & Hsum).
      rewrite Hcontents in Hcontents'. injection Hcontents' as <-.
      rewrite Hscan in Hscan'. injection Hscan' as <-.
      rewrite Hcombined in Hcomb. injection Hcomb as <-.
      exists file, mime, extracted. by repeat split.
    + intros (file & mime & extracted & Hc & Hfile & Hf & Hmime & Hext & Hne
              & Hsum & -> & ->).
      unfold summarize_route. cbn [mbind Result_bind].
      rewrite Hcontents. cbn [mbind Result_bind].
      destruct contents as [|c cs]; [done|]. cbn [mbind Result_bind].
      rewrite Hscan. cbn [mbind Result_bind]. rewrite Hfile.
      destruct file as [|b bs]; [done|]. cbn [mbind Result_bind].
      rewrite Hmime, Hext. cbn [mbind Result_bind].
      destruct (decide (extracted = "")); [done|].
      rewrite Hcombined. cbn [mbind Result_bind]. rewrite Hsum. done.
  - intros extracted summary Hsum.
    destruct (extractive_summarize_cases word_tokenize sent_tokenize STOPWORDS
                (p +:+ blank_line +:+ extracted) 4)
      as (out & Hout & [[Hshort ->] | (_ & sel & Hsub & -> & _)]);
      rewrite Hout in Hsum; injection Hsum as <-.
    + by left.
    + right. by exists sel.
Qed.

End RouteTheorems.

(** ** The theorems on concrete inputs *)

(** C1 as stated fails on a short text: [indented_text] is returned
    trimmed, so its first sentence, without the leading space, is no
    sentence of the text, and the returned string is the join of no
    sublist of the sentences of the text. *)
Lemma trimmed_sentence_not_in_text :
  let sentences := MoreSamples.sent_tokenize MoreSamples.indented_text in
  let out := "It rains. We stay home." in
  1 <= 4
  /\ sentences = [ " It rains."; "We stay home." ]
  /\ MoreSamples.summarize MoreSamples.indented_text 4 = Some out
  /\ MoreSamples.sent_tokenize out = [ "It rains."; "We stay home." ]
  /\ ("It rains." ∉ sentences)
  /\ ~ (MoreSamples.sent_tokenize out `sublist_of` sentences)
  /\ (forall sel, sel `sublist_of` sentences -> out <> join blank_line sel).
Proof.
  intros sentences out.
  assert (sentences = [ " It rains."; "We stay home." ]) as Hs
    by by vm_compute.
  assert ("It rains." ∉ sentences) as Hnotin.
  { rewrite Hs. intros H. apply elem_of_cons in H as [H|H]; [done|].
    apply elem_of_cons in H as [H|H]; [done|]. by apply elem_of_nil in H. }
  split; [lia|]. split; [exact Hs|]. split; [by vm_compute|].
  split; [by vm_compute|]. split; [exact Hnotin|]. split.
  - intros Hsub. apply Hnotin.
    apply (elem_of_sublist _ _ "It rains.") in Hsub; [done|].
    assert (MoreSamples.sent_tokenize out = [ "It rains."; "We stay home." ])
      as -> by by vm_compute.
    left.
  - rewrite Hs. intros sel Hsub.
    assert (sel = [] \/ sel = [ " It rains." ] \/ sel = [ "We stay home." ]
            \/ sel = [ " It rains."; "We stay home." ]) as Hcases.
    { inversion Hsub as [|x l1 l2 H1|x l1 l2 H1]; subst;
        inversion H1 as [|y k1 k2 H2|y k1 k2 H2]; subst;
        inversion H2; subst; auto. }
    destruct Hcases as [->|[->|[->| ->]]]; vm_compute; discriminate.
Qed.

Lemma summary_preserves_order_witness :
  1 <= 2
  /\ 50 <= len (strip Sample.mammals_text)
  /\ (exists sel,
        Sample.summarize Sample.mammals_text 2 = Some (join blank_line sel)
        /\ sel `sublist_of` Sample.sent_tokenize Sample.mammals_text)
  /\ (forall ranking,
        ranking ≡ₚ seq 0 (length (Sample.sent_tokenize Sample.mammals_text)) ->
        exists sel,
          mapM (fun i => Sample.sent_tokenize Sample.mammals_text !! i)
               (sorted (slice_to 2 ranking)) = Some sel
          /\ sel `sublist_of` Sample.sent_tokenize Sample.mammals_text).
Proof.
  split; [lia|]. split; [by vm_compute|].
  apply (summary_preserves_order Sample.word_tokenize Sample.sent_tokenize
           Sample.STOPWORDS Sample.mammals_text 2).
  - lia.
  - by vm_compute.
Defined.

(** C2 as stated fails on a short text: [short_text] has two sentences,
    two is at most four, and the summarizer returns the text as it is, one
    space between its sentences, not the sentences joined by a blank line. *)
Lemma short_text_not_joined :
  1 <= 4
  /\ Sample.sent_tokenize Sample.short_text = [ "It rains."; "We stay home." ]
  /\ Z.of_nat (length (Sample.sent_tokenize Sample.short_text)) <= 4
  /\ Sample.summarize Sample.short_text 4 = Some "It rains. We stay home."
  /\ Sample.summarize Sample.short_text 4
     <> Some (join blank_line (Sample.sent_tokenize Sample.short_text)).
Proof.
  split; [lia|]. split; [by vm_compute|]. split; [by vm_compute|].
  split; [by vm_compute|]. vm_compute. discriminate.
Qed.

Lemma summary_respects_bound_witness :
  1 <= 2
  /\ 50 <= len (strip Sample.mammals_text)
  /\ (Z.of_nat (length (Sample.sent_tokenize Sample.mammals_text)) <= 2 ->
      Sample.summarize Sample.mammals_text 2
      = Some (join blank_line (Sample.sent_tokenize Sample.mammals_text)))
  /\ (2 < Z.of_nat (length (Sample.sent_tokenize Sample.mammals_text)) ->
      exists sel,
        Sample.summarize Sample.mammals_text 2 = Some (join blank_line sel)
        /\ sel `sublist_of` Sample.sent_tokenize Sample.mammals_text
        /\ Z.of_nat (length sel) <= 2).
Proof.
  split; [lia|]. split; [by vm_compute|].
  apply (summary_respects_bound Sample.word_tokenize Sample.sent_tokenize
           Sample.STOPWORDS Sample.mammals_text 2).
  - lia.
  - by vm_compute.
Defined.

Lemma short_input_passthrough_witness :
  len (strip Sample.short_text) < 50
  /\ 1 <= 4
  /\ Sample.summarize Sample.short_text 4 = Some (strip Sample.short_text).
Proof.
  split; [by vm_compute|]. split; [lia|].
  apply (short_input_passthrough Sample.word_tokenize Sample.sent_tokenize
           Sample.STOPWORDS Sample.short_text 4).
  - by vm_compute.
  - lia.
Defined.

(** C4 as stated fails: on the text of the scenario the summarizer returns
    the first and the fourth sentence, not the two about mammals. *)
Lemma mammals_expected_not_returned :
  Sample.sent_tokenize Sample.mammals_text = Sample.mammals_sentences
  /\ Sample.summarize Sample.mammals_text 2 = Some Sample.mammals_summary
  /\ Sample.summarize Sample.mammals_text 2 <> Some Sample.mammals_expected.
Proof.
  split; [by vm_compute|]. split; [by vm_compute|].
  vm_compute. discriminate.
Qed.

Lemma mammals_scenario_witness :
  score_sentences Sample.word_tokenize
    (Sample.sent_tokenize Sample.mammals_text)
    (build_word_freq Sample.word_tokenize Sample.STOPWORDS
       Sample.mammals_text)
  = [ (0%nat, 3 # 5); (1%nat, 3 # 6); (2%nat, 2 # 6); (3%nat, 4 # 7) ]%Q
  /\ Sample.summarize Sample.mammals_text 2 = Some Sample.mammals_summary.
Proof.
  apply (mammals_scenario Sample.word_tokenize Sample.sent_tokenize
           Sample.STOPWORDS).
  - vm_compute. reflexivity.
  - vm_compute. reflexivity.
  - vm_compute. reflexivity.
  - repeat apply Forall_cons_2; try apply Forall_nil_2;
      apply sample_stopword; decide_elem.
  - repeat apply Forall_cons_2; try apply Forall_nil_2;
      rewrite sample_stopword; decide_elem.
Defined.

Lemma score_sentences_spec_witness :
  let freq := build_word_freq Sample.word_tokenize Sample.STOPWORDS
                Sample.mammals_text in
  let scores := score_sentences Sample.word_tokenize
                  Sample.mammals_sentences freq in
  frequency_model Sample.STOPWORDS freq
  /\ PyDict.keys scores = seq 0 (length Sample.mammals_sentences)
  /\ forall i s, Sample.mammals_sentences !! i = Some s ->
       exists q,
         PyDict.get scores i = Some q
         /\ (q == spec_sentence_score freq (Sample.word_tokenize s))%Q
         /\ (0 <= q)%Q
         /\ (Sample.word_tokenize s = [] -> q == 0)%Q.
Proof.
  intros freq scores.
  pose proof (build_word_freq_model Sample.word_tokenize Sample.STOPWORDS
                Sample.mammals_text) as Hfm.
  split; [exact Hfm|].
  exact (score_sentences_spec Sample.word_tokenize Sample.STOPWORDS
           Sample.mammals_sentences freq Hfm).
Defined.

Lemma build_word_freq_keys_witness :
  build_word_freq Sample.word_tokenize Sample.STOPWORDS Sample.cat_text
    !! "cat" = Some 3
  /\ ("cat" ∉ Sample.STOPWORDS)
  /\ "cat" <> ""
  /\ all_chars is_lower_alnum "cat" = true
  /\ 0 < 3.
Proof.
  split; [by vm_compute|].
  apply (build_word_freq_keys Sample.word_tokenize Sample.STOPWORDS
           Sample.cat_text "cat" 3).
  by vm_compute.
Defined.

(** C7 as stated fails: the sentence of the prompt is the first sentence
    of the summary the route returns for [report_request]. *)
Lemma prompt_sentence_selected :
  Sample.sent_tokenize Sample.report_prompt = [ Sample.report_prompt ]
  /\ Sample.extract "image/png" Sample.report_bytes = Ok Sample.report_text
  /\ Sample.route Sample.report_request
     = Ok (SummaryResponse
             (join blank_line
                [ Sample.report_prompt; "Revenue grew strongly this year.";
                  "Profit margins were stable.";
                  "Staff enjoyed the summer party." ])
             (len Sample.report_text) (JStr "image/png")).
Proof. split; [by vm_compute|]. split; by vm_compute. Qed.

Lemma prompt_joins_the_text_witness :
  let payload :=
    JObj [("contents", JArr [JObj [("parts", JArr [
      JObj [("text", JStr Sample.report_prompt)];
      JObj [("inlineData", JObj [("mimeType", JStr "image/png");
                                 ("data", JStr Sample.report_b64)])]])]])] in
  let contents :=
    [ JObj [("parts", JArr [
        JObj [("text", JStr Sample.report_prompt)];
        JObj [("inlineData", JObj [("mimeType", JStr "image/png");
                                   ("data", JStr Sample.report_b64)])]])] ] in
  let st := ScanState (Some Sample.report_bytes) (JStr "image/png")
              (JStr Sample.report_prompt) in
  let p := Sample.report_prompt in
  Sample.report_request = Some payload
  /\ json_get payload "contents" JNull = Ok (JArr contents)
  /\ scan_contents Sample.b64decode (ScanState None JNull JNull) contents
     = Ok st
  /\ prompt_text st = JStr p
  /\ p <> ""
  /\ Sample.route (Some payload)
     = Ok (SummaryResponse Sample.report_summary (len Sample.report_text)
             (JStr "image/png"))
  /\ (forall summary n m,
        Sample.route (Some payload) = Ok (SummaryResponse summary n m)
        <-> exists file mime extracted,
              contents <> [] /\ file_bytes st = Some file /\ file <> []
              /\ py_or (mime_type st) (JStr "") = JStr mime
              /\ Sample.extract mime file = Ok extracted
              /\ extracted <> ""
              /\ Sample.summarize (p +:+ blank_line +:+ extracted) 4
                 = Some summary
              /\ n = len extracted
              /\ m = py_or (mime_type st) (JStr "unknown"))
  /\ (forall extracted summary,
        Sample.summarize (p +:+ blank_line +:+ extracted) 4 = Some summary ->
        len (strip (p +:+ blank_line +:+ extracted)) < 50
        /\ summary = strip (p +:+ blank_line +:+ extracted)
        \/ exists sel,
             sel `sublist_of`
               Sample.sent_tokenize (p +:+ blank_line +:+ extracted)
             /\ summary = join blank_line sel).
Proof.
  intros payload contents st p.
  split; [done|]. split; [done|]. split; [by vm_compute|].
  split; [done|]. split; [done|]. split; [by vm_compute|].
  apply (prompt_joins_the_text Sample.word_tokenize Sample.sent_tokenize
           Sample.STOPWORDS Sample.page Sample.PdfReader_pages
           Sample.page_extract_text Sample.image Sample.Image_open_convert
           Sample.image_to_string Sample.b64decode payload contents st p).
  - done.
  - by vm_compute.
  - done.
  - done.
Defined.


Lemma silent_token_lowers_score_witness :
  let freq : gmap string Z := {[ "cats" := 2 ]} in
  Sample.word_tokenize "Cats purr !" = Sample.word_tokenize "Cats purr" ++ ["!"]
  /\ normalize_word "!" = ""
  /\ exists q q',
       PyDict.get (score_sentences Sample.word_tokenize ["Cats purr"] freq)
         0%nat = Some q
       /\ PyDict.get (score_sentences Sample.word_tokenize ["Cats purr !"] freq)
            0%nat = Some q'
       /\ Z.pos (Qden q)
          = Z.of_nat (length (Sample.word_tokenize "Cats purr")) + 1
       /\ Z.pos (Qden q')
          = Z.of_nat (length (Sample.word_tokenize "Cats purr")) + 2
       /\ Qnum q' = Qnum q
       /\ (0 < q -> q' < q)%Q.
Proof.
  intros freq. split; [by vm_compute|]. split; [by vm_compute|].
  apply (silent_token_lowers_score Sample.word_tokenize Sample.STOPWORDS freq
           ["Cats purr"] ["Cats purr !"] 0%nat "Cats purr" "Cats purr !" "!").
  - reflexivity.
  - reflexivity.
  - by vm_compute.
  - left. by vm_compute.
Defined.

(** The extractor is total on declared types that are strings.  A request
    whose [mimeType] is a number reaches [mime_type.startswith] with that
    number, and the route fails before any extraction. *)
Lemma numeric_mime_type_raises :
  Sample.route
    (Some (JObj [("contents", JArr [JObj [("parts", JArr [
       JObj [("inlineData", JObj [("mimeType", JNum 5);
                                  ("data", JStr Sample.report_b64)])]])]])]))
  = Raise AttributeError.
Proof. by vm_compute. Qed.

(** * Further properties *)

(** ** Trimming and normalization *)

Section TrimFacts.

Lemma lstrip_head s :
  match lstrip s with
  | EmptyString => True
  | String c _ => is_space c = false
  end.
Proof.
  induction s as [|c s IH]; simpl; [done|].
  destruct (is_space c) eqn:Hc; [done|]. simpl. done.
Qed.

Lemma lstrip_empty s : lstrip s = "" <-> all_chars is_space s = true.
Proof.
  induction s as [|c s IH]; simpl; [done|].
  destruct (is_space c); simpl; [done|]. split; done.
Qed.

Lemma rstrip_head c r :
  is_space c = false -> exists r', rstrip (String c r) = String c r'.
Proof.
  intros Hc. simpl. destruct (rstrip r); rewrite ?Hc; eauto.
Qed.

Lemma rstrip_idem s : rstrip (rstrip s) = rstrip s.
Proof.
  induction s as [|c s IH]; simpl; [done|].
  destruct (rstrip s) as [|d t] eqn:Ht.
  - destruct (is_space c) eqn:Hc; simpl; [done|]. by rewrite Hc.
  - change (rstrip (String c (String d t))) with
      (match rstrip (String d t) with
       | EmptyString =>
           if is_space c then EmptyString else String c EmptyString
       | r' => String c r'
       end).
    by rewrite IH.
Qed.

Lemma strip_idem s : strip (strip s) = strip s.
Proof.
  unfold strip. pose proof (lstrip_head s) as Hhead.
  destruct (lstrip s) as [|c r]; [done|].
  destruct (rstrip_head c r Hhead) as (r' & Hr). rewrite Hr.
  simpl lstrip. rewrite Hhead, <- Hr. apply rstrip_idem.
Qed.

Lemma strip_blank s : strip s = "" <-> all_chars is_space s = true.
Proof.
  rewrite <- lstrip_empty. unfold strip. pose proof (lstrip_head s) as Hhead.
  destruct (lstrip s) as [|c r]; [done|].
  destruct (rstrip_head c r Hhead) as (r' & ->). done.
Qed.

Lemma strip_head s :
  match strip s with
  | EmptyString => True
  | String c _ => is_space c = false
  end.
Proof.
  unfold strip. pose proof (lstrip_head s) as Hhead.
  destruct (lstrip s) as [|c r]; [done|].
  destruct (rstrip_head c r Hhead) as (r' & ->). done.
Qed.

(** Trimming is idempotent, its result does not start with white
    space, and it is empty exactly for the strings made of white space
    only. *)
Theorem strip_trims s :
  strip (strip s) = strip s
  /\ (strip s = "" <-> all_chars is_space s = true)
  /\ match strip s with
     | EmptyString => True
     | String c _ => is_space c = false
     end.
Proof.
  split; [apply strip_idem|]. split; [apply strip_blank|apply strip_head].
Qed.

Lemma append_empty_r s : s +:+ "" = s.
Proof.
  induction s as [|c s IH]; [done|].
  change (String c (s +:+ "") = String c s). by rewrite IH.
Qed.

Lemma lower_alnum_char c :
  is_lower_alnum c = true -> is_ascii_alnum c = true /\ lower_char c = c.
Proof.
  destruct c as [[] [] [] [] [] [] [] []]; vm_compute; intros; split; congruence.
Qed.

Lemma capital_char_class c :
  is_ascii_alnum (capital_char c) = is_ascii_alnum c
  /\ (is_ascii_alnum c = true ->
      lower_char (capital_char c) = lower_char c).
Proof.
  destruct c as [[] [] [] [] [] [] [] []]; vm_compute; split; congruence.
Qed.

Lemma normalize_word_fixed w :
  all_chars is_lower_alnum w = true -> normalize_word w = w.
Proof.
  unfold normalize_word. induction w as [|c w IH]; simpl; [done|].
  intros [Hc Hw]%andb_true_iff.
  destruct (lower_alnum_char c Hc) as [-> Hl]. simpl. by rewrite Hl, IH.
Qed.

Lemma normalize_word_app a b :
  normalize_word (a +:+ b) = normalize_word a +:+ normalize_word b.
Proof.
  unfold normalize_word. induction a as [|c a IH]; simpl; [done|].
  destruct (is_ascii_alnum c); simpl; by rewrite ?IH.
Qed.

Lemma normalize_word_blank w :
  normalize_word w = ""
  <-> all_chars (fun c => negb (is_ascii_alnum c)) w = true.
Proof.
  unfold normalize_word. induction w as [|c w IH]; simpl; [done|].
  destruct (is_ascii_alnum c); simpl; [split; done|done].
Qed.

Lemma normalize_word_capitals w :
  normalize_word (capitals w) = normalize_word w.
Proof.
  unfold normalize_word. induction w as [|c w IH]; simpl; [done|].
  destruct (capital_char_class c) as [-> Hl].
  destruct (is_ascii_alnum c); simpl; [|done]. by rewrite Hl, IH.
Qed.

(** X1.  Normalization is idempotent; the words it leaves unchanged are
    exactly those made of lowercase ASCII letters and digits; and it maps
    a word to the empty string exactly when the word has no ASCII letter
    or digit. *)
Theorem normalize_word_idempotent w :
  normalize_word (normalize_word w) = normalize_word w
  /\ (normalize_word w = w <-> all_chars is_lower_alnum w = true)
  /\ (normalize_word w = ""
      <-> all_chars (fun c => negb (is_ascii_alnum c)) w = true).
Proof.
  split; [apply normalize_word_fixed, normalize_word_chars|].
  split; [|apply normalize_word_blank].
  split; [|apply normalize_word_fixed].
  intros <-. apply normalize_word_chars.
Qed.

(** X2.  Normalization works character by character, so it ignores the
    case of the ASCII letters of a word and whatever punctuation stands
    around it or inside it: it commutes with concatenation, gives the same
    result on the word with its ASCII letters capitalized, and drops any
    affix without letters and digits. *)
Theorem normalize_word_ignores_case_and_punctuation pre w post :
  normalize_word (pre +:+ w +:+ post)
  = normalize_word pre +:+ normalize_word w +:+ normalize_word post
  /\ normalize_word (capitals w) = normalize_word w
  /\ (all_chars (fun c => negb (is_ascii_alnum c)) pre = true ->
      all_chars (fun c => negb (is_ascii_alnum c)) post = true ->
      normalize_word (pre +:+ w +:+ post) = normalize_word w).
Proof.
  split; [by rewrite !normalize_word_app|].
  split; [apply normalize_word_capitals|].
  intros Hpre%normalize_word_blank Hpost%normalize_word_blank.
  rewrite !normalize_word_app, Hpre, Hpost. simpl. apply append_empty_r.
Qed.

End TrimFacts.

(** ** What the frequency model counts *)

Section FrequencyFacts.

Context (word_tokenize sent_tokenize : string -> list string).
Context (STOPWORDS : gset string).

Local Abbreviation count_word := (count_word STOPWORDS).
Local Abbreviation build_word_freq :=
  (build_word_freq word_tokenize STOPWORDS).
Local Abbreviation frequency_model := (frequency_model STOPWORDS).
Local Abbreviation silent := (silent STOPWORDS).
Local Abbreviation score_sentences := (score_sentences word_tokenize).
Local Abbreviation extractive_summarize :=
  (extractive_summarize word_tokenize sent_tokenize STOPWORDS).

Lemma count_tokens_cons k w ws :
  count_tokens k (w :: ws)
  = (if decide (normalize_word w = k) then 1 else 0) + count_tokens k ws.
Proof.
  unfold count_tokens. rewrite filter_cons.
  destruct (decide (normalize_word w = k)); simpl; lia.
Qed.

Lemma count_tokens_nonneg k ws : 0 <= count_tokens k ws.
Proof. unfold count_tokens. lia. Qed.

Lemma count_tokens_pos k ws :
  0 < count_tokens k ws <-> exists w, w ∈ ws /\ normalize_word w = k.
Proof.
  unfold count_tokens. split.
  - intros Hpos.
    destruct (filter (fun w => normalize_word w = k) ws) as [|w l] eqn:Hf;
      [simpl in Hpos; lia|].
    assert (w ∈ filter (fun w => normalize_word w = k) ws) as Hin
      by (rewrite Hf; left).
    apply list_elem_of_filter in Hin as [? ?]. by exists w.
  - intros (w & Hw & Hk).
    assert (w ∈ filter (fun w => normalize_word w = k) ws) as Hin
      by by apply list_elem_of_filter.
    destruct (filter _ ws); [by apply elem_of_nil in Hin|simpl; lia].
Qed.

(** The count held for a content word grows by its occurrences; other
    keys are never touched. *)
Lemma foldl_count_word_lookup ws freq k :
  (k <> "" -> k ∉ STOPWORDS ->
   default 0 (foldl count_word freq ws !! k)
   = default 0 (freq !! k) + count_tokens k ws)
  /\ (k = "" \/ k ∈ STOPWORDS -> foldl count_word freq ws !! k = freq !! k).
Proof.
  revert freq. induction ws as [|w ws IH]; intros freq.
  { split; [intros; unfold count_tokens; simpl; lia|done]. }
  simpl. destruct (IH (count_word freq w)) as [IHc IHs].
  rewrite count_tokens_cons.
  split.
  - intros Hne Hns. rewrite (IHc Hne Hns). unfold count_word.
    destruct (decide (normalize_word w = "")) as [E|E].
    { destruct (decide (normalize_word w = k)); [congruence|lia]. }
    destruct (decide (normalize_word w ∈ STOPWORDS)) as [S|S].
    { destruct (decide (normalize_word w = k)); [by subst|lia]. }
    rewrite lookup_insert.
    destruct (decide (normalize_word w = k)) as [->|]; simpl; lia.
  - intros Hk. rewrite (IHs Hk). unfold count_word.
    destruct (decide (normalize_word w = "")) as [E|E]; [done|].
    destruct (decide (normalize_word w ∈ STOPWORDS)) as [S|S]; [done|].
    rewrite lookup_insert_ne; [done|]. intros Heq.
    destruct Hk as [Hk|Hk]; [by apply E; rewrite Heq|by apply S; rewrite Heq].
Qed.

Lemma build_word_freq_lookup text k v :
  build_word_freq text !! k = Some v
  <-> k <> "" /\ (k ∉ STOPWORDS)
      /\ v = count_tokens k (word_tokenize text) /\ 0 < v.
Proof.
  unfold build_word_freq.
  destruct (foldl_count_word_lookup (word_tokenize text) ∅ k) as [Hc Hs].
  rewrite lookup_empty in Hc, Hs. simpl in Hc.
  split.
  - intros Hk.
    destruct (build_word_freq_model word_tokenize STOPWORDS text k v Hk)
      as (Hne & _ & Hns & Hpos).
    specialize (Hc Hne Hns). unfold build_word_freq in Hk.
    rewrite Hk in Hc. simpl in Hc. repeat split; [done|done|lia|done].
  - intros (Hne & Hns & -> & Hpos). specialize (Hc Hne Hns).
    destruct (foldl count_word ∅ (word_tokenize text) !! k) as [c|];
      simpl in Hc; [by rewrite Hc|lia].
Qed.

(** X3.  The frequency model holds, for each key, the number of tokens of
    the text whose normalization is that key: [k] maps to [v] exactly when
    [k] is not empty, is no stopword, and [v > 0] tokens normalize to [k]. *)
Theorem build_word_freq_counts text k v :
  build_word_freq text !! k = Some v
  <-> k <> "" /\ (k ∉ STOPWORDS)
      /\ v = count_tokens k (word_tokenize text) /\ 0 < v.
Proof. apply build_word_freq_lookup. Qed.

Lemma build_word_freq_empty text :
  build_word_freq text = ∅ <-> Forall silent (word_tokenize text).
Proof.
  split.
  - intros Hempty. apply Forall_forall. intros w Hw. unfold silent.
    destruct (decide (normalize_word w = "")) as [|Hne]; [by left|].
    destruct (decide (normalize_word w ∈ STOPWORDS)) as [|Hns]; [by right|].
    exfalso.
    assert (0 < count_tokens (normalize_word w) (word_tokenize text)) as Hpos
      by (apply count_tokens_pos; by exists w).
    assert (build_word_freq text !! normalize_word w
            = Some (count_tokens (normalize_word w) (word_tokenize text)))
      as Hk by by apply build_word_freq_lookup.
    by rewrite Hempty, lookup_empty in Hk.
  - intros Hsilent. apply map_eq. intros k. rewrite lookup_empty.
    destruct (build_word_freq text !! k) as [v|] eqn:Hk; [|done].
    apply build_word_freq_lookup in Hk as (Hne & Hns & -> & Hpos).
    apply count_tokens_pos in Hpos as (w & Hw & <-).
    apply (proj1 (Forall_forall _ _) Hsilent) in Hw as [?|?]; done.
Qed.

(** X4.  The frequency model is empty exactly when every token of the
    text normalizes to the empty string or to a stopword. *)
Theorem build_word_freq_empty_iff text :
  build_word_freq text = ∅ <-> Forall silent (word_tokenize text).
Proof. apply build_word_freq_empty. Qed.

(** X5.  The fallback of the summarizer: when the trimmed text has 50
    characters or more, more than [max_sentences] sentences, and no token
    that counts, the summary is the first [max_sentences] sentences. *)
Theorem fallback_first_sentences text max_sentences :
  50 <= len (strip text) ->
  0 <= max_sentences < Z.of_nat (length (sent_tokenize text)) ->
  Forall silent (word_tokenize text) ->
  extractive_summarize text max_sentences
  = Some (join blank_line
            (take (Z.to_nat max_sentences) (sent_tokenize text))).
Proof.
  intros Hlong [Hk Hmany] Hsilent. unfold extractive_summarize.
  destruct (decide (text = "")) as [->|_]; [by vm_compute in Hlong|].
  apply Z.ltb_ge in Hlong. rewrite Hlong.
  apply Z.leb_gt in Hmany. rewrite Hmany.
  apply build_word_freq_empty in Hsilent.
  destruct (decide (build_word_freq text = ∅)); [|done].
  unfold slice_to. apply Z.leb_le in Hk. by rewrite Hk.
Qed.

End FrequencyFacts.

(** ** The ranking *)

Section SortFacts.

Lemma Qltb_lt a b : Qltb a b = true <-> (a < b)%Q.
Proof.
  unfold Qltb. rewrite negb_true_iff. split.
  - intros Hle. apply Qnot_le_lt. intros Hba.
    apply Qle_bool_iff in Hba. congruence.
  - intros Hlt. destruct (Qle_bool b a) eqn:Hle; [|done].
    apply Qle_bool_iff in Hle. by apply Qlt_not_le in Hlt.
Qed.

Lemma beats_of_le (x z : nat * Q) :
  (z.2 <= x.2)%Q -> (x.1 < z.1)%nat -> beats x z.
Proof.
  intros Hle Hidx. unfold beats.
  apply Qle_lt_or_eq in Hle as [Hlt|Heq]; [by left|right].
  split; [by symmetry|done].
Qed.

Lemma insert_desc_sorted (x : nat * Q) l :
  StronglySorted beats l ->
  Forall (fun y => (x.1 < y.1)%nat) l ->
  StronglySorted beats (insert_desc x l).
Proof.
  induction 1 as [|y r Hr IH Hy]; intros Hidx; simpl.
  - repeat constructor.
  - apply Forall_cons in Hidx as [Hxy Hidx].
    destruct (Qltb x.2 y.2) eqn:Hlt.
    + apply Qltb_lt in Hlt. constructor; [by apply IH|].
      rewrite insert_desc_perm. constructor; [by left|done].
    + assert (y.2 <= x.2)%Q as Hle.
      { apply Qnot_lt_le. intros H%Qltb_lt. congruence. }
      constructor; [by constructor|].
      constructor; [by apply beats_of_le|].
      apply Forall_forall. intros z Hz.
      apply beats_of_le; [|by apply (proj1 (Forall_forall _ _) Hidx)].
      destruct (proj1 (Forall_forall _ _) Hy z Hz) as [Hzy|[Heq _]].
      * apply Qlt_le_weak. by eapply Qlt_le_trans.
      * by rewrite <- Heq.
Qed.

Lemma sorted_desc_sorted (l : list (nat * Q)) :
  StronglySorted lt l.*1 -> StronglySorted beats (sorted_desc l).
Proof.
  induction l as [|x l IH]; csimpl; [constructor|].
  intros [Hl Hx]%StronglySorted_inv.
  apply insert_desc_sorted; [by apply IH|].
  apply Forall_forall. intros y Hy. rewrite sorted_desc_perm in Hy.
  apply (proj1 (Forall_forall _ _) Hx). by apply list_elem_of_fmap_2.
Qed.

(** [sorted(..., key=..., reverse=True)] on items listed by ascending
    index: the result holds the same items, by descending score, and items
    of equal score stay in index order. *)
Theorem sorted_desc_stable (l : list (nat * Q)) :
  StronglySorted lt l.*1 ->
  sorted_desc l ≡ₚ l /\ StronglySorted beats (sorted_desc l).
Proof. intros Hl. split; [apply sorted_desc_perm|by apply sorted_desc_sorted]. Qed.

Lemma seq_sorted a n : StronglySorted lt (seq a n).
Proof.
  revert a. induction n as [|n IH]; intros a; simpl; constructor; [done|].
  apply Forall_forall. intros i Hi%elem_of_seq. lia.
Qed.

Lemma get_elem_of {V} (d : PyDict.t nat V) k v :
  NoDup (PyDict.keys d) -> (k, v) ∈ d <-> PyDict.get d k = Some v.
Proof.
  unfold PyDict.keys. induction d as [|[k' v'] d IH]; csimpl.
  { intros _. split; [by intros ?%elem_of_nil|done]. }
  intros [Hk' Hnd]%NoDup_cons. rewrite elem_of_cons.
  destruct (decide (k' = k)) as [->|Hne].
  - split; [|intros [= ->]; by left].
    intros [[= ->]|Hin]; [done|].
    exfalso. apply Hk'. by apply (list_elem_of_fmap_2 fst) in Hin.
  - rewrite <- (IH Hnd). split; [|by right].
    intros [[= -> ->]|Hin]; done.
Qed.

End SortFacts.

Section RankingTheorems.

Context (word_tokenize sent_tokenize : string -> list string).
Context (STOPWORDS : gset string).

Local Abbreviation build_word_freq :=
  (build_word_freq word_tokenize STOPWORDS).
Local Abbreviation frequency_model := (frequency_model STOPWORDS).
Local Abbreviation score_sentences := (score_sentences word_tokenize).
Local Abbreviation extractive_summarize :=
  (extractive_summarize word_tokenize sent_tokenize STOPWORDS).

(** X6.  The selection of the summarizer.  For a text of 50 characters or
    more after trimming, with more than [max_sentences >= 0] sentences and
    a non-empty frequency model, the summary joins the sentences at
    exactly [max_sentences] indices, taken in ascending order, and every
    selected sentence is ranked before every sentence left out: it has a
    higher score, or the same score and a smaller index. *)
Theorem top_sentences_selected text max_sentences :
  50 <= len (strip text) ->
  0 <= max_sentences < Z.of_nat (length (sent_tokenize text)) ->
  build_word_freq text <> ∅ ->
  exists top sel,
    StronglySorted lt top
    /\ length top = Z.to_nat max_sentences
    /\ mapM (fun i => sent_tokenize text !! i) top = Some sel
    /\ extractive_summarize text max_sentences = Some (join blank_line sel)
    /\ forall i j qi qj,
         i ∈ top -> j ∉ top ->
         PyDict.get (score_sentences (sent_tokenize text)
                       (build_word_freq text)) i = Some qi ->
         PyDict.get (score_sentences (sent_tokenize text)
                       (build_word_freq text)) j = Some qj ->
         beats (i, qi) (j, qj).
Proof.
  intros Hlong [Hk Hmany] Hfreq. unfold extractive_summarize.
  destruct (decide (text = "")) as [->|_]; [by vm_compute in Hlong|].
  apply Z.ltb_ge in Hlong. rewrite Hlong.
  pose proof Hmany as Hmany'. apply Z.leb_gt in Hmany'. rewrite Hmany'.
  destruct (decide (build_word_freq text = ∅)); [done|].
  set (sentences := sent_tokenize text) in *.
  set (scores := score_sentences sentences (build_word_freq text)).
  assert (PyDict.keys scores = seq 0 (length sentences)) as Hkeys
    by apply score_sentences_keys.
  assert (NoDup (PyDict.keys scores)) as Hnd
    by (rewrite Hkeys; apply NoDup_seq).
  rewrite items_by_keys by done. cbn [mbind option_bind].
  set (S := sorted_desc scores).
  assert (S ≡ₚ scores) as HpermS by apply sorted_desc_perm.
  assert (S.*1 ≡ₚ seq 0 (length sentences)) as Hperm
    by by rewrite HpermS, <- Hkeys.
  assert (StronglySorted beats S) as Hsorted.
  { apply sorted_desc_sorted. fold (PyDict.keys scores).
    rewrite Hkeys. apply seq_sorted. }
  assert (slice_to max_sentences S.*1 = take (Z.to_nat max_sentences) S.*1)
    as Hslice.
  { unfold slice_to. apply Z.leb_le in Hk. by rewrite Hk. }
  destruct (selection_any_ranking sentences S.*1 max_sentences Hperm)
    as (sel & Hsel & _ & Hlen).
  rewrite Hsel. cbn [mbind option_bind].
  exists (sorted (slice_to max_sentences S.*1)), sel.
  assert (NoDup (slice_to max_sentences S.*1)) as Hndtop.
  { apply (sublist_NoDup _ S.*1); [|apply slice_to_sublist].
    rewrite Hperm. apply NoDup_seq. }
  split; [by apply sorted_strict|]. split.
  { rewrite (Permutation_length (sorted_perm _)), Hslice, length_take.
    rewrite (Permutation_length Hperm), length_seq. lia. }
  split; [done|]. split; [done|].
  intros i j qi qj Hi Hj Hqi Hqj.
  rewrite sorted_perm, Hslice in Hi. rewrite sorted_perm, Hslice in Hj.
  rewrite <- fmap_take in Hi, Hj.
  apply list_elem_of_fmap in Hi as ([i' q'] & -> & Hi'). simpl in *.
  assert ((i', q') ∈ scores) as Hin.
  { rewrite <- HpermS. rewrite <- (take_drop (Z.to_nat max_sentences) S).
    apply elem_of_app. by left. }
  apply get_elem_of in Hin; [|done]. rewrite Hin in Hqi. injection Hqi as <-.
  assert ((j, qj) ∈ drop (Z.to_nat max_sentences) S) as Hjdrop.
  { apply get_elem_of in Hqj; [|done]. rewrite <- HpermS in Hqj.
    rewrite <- (take_drop (Z.to_nat max_sentences) S) in Hqj.
    apply elem_of_app in Hqj as [Hqj|Hqj]; [|done].
    exfalso. apply Hj. by apply (list_elem_of_fmap_2 fst) in Hqj. }
  apply (StronglySorted_app_1_elem_of beats
           (take (Z.to_nat max_sentences) S)
           (drop (Z.to_nat max_sentences) S)); [|done|done].
  by rewrite take_drop.
Qed.

(** X7.  For a text of 50 characters or more after trimming, with more
    sentences than [max_sentences >= 0], the summary joins exactly
    [max_sentences] sentences; with [max_sentences = 0] it is empty. *)
Theorem summary_has_exactly_k_sentences text max_sentences :
  50 <= len (strip text) ->
  0 <= max_sentences < Z.of_nat (length (sent_tokenize text)) ->
  exists sel,
    extractive_summarize text max_sentences = Some (join blank_line sel)
    /\ sel `sublist_of` sent_tokenize text
    /\ Z.of_nat (length sel) = max_sentences
    /\ (max_sentences = 0 ->
        extractive_summarize text max_sentences = Some "").
Proof.
  intros Hlong [Hk Hmany].
  destruct (extractive_summarize_cases word_tokenize sent_tokenize STOPWORDS
              text max_sentences)
    as (out & Hout & [[Hshort _] | (_ & sel & Hsub & -> & _ & Hmore)]);
    [lia|].
  specialize (Hmore Hmany). rewrite length_slice_to in Hmore by done.
  exists sel. split; [done|]. split; [done|]. split; [lia|].
  intros ->. destruct sel; [done|simpl in Hmore; lia].
Qed.

(** X8.  A negative [max_sentences] is a slice from the end: for a text
    of 50 characters or more after trimming the summary joins all but
    [-max_sentences] of the sentences (none, when there are not that
    many). *)
Theorem negative_bound_drops_sentences text max_sentences :
  50 <= len (strip text) ->
  max_sentences < 0 ->
  exists sel,
    extractive_summarize text max_sentences = Some (join blank_line sel)
    /\ sel `sublist_of` sent_tokenize text
    /\ length sel
       = (length (sent_tokenize text) - Z.to_nat (- max_sentences))%nat.
Proof.
  intros Hlong Hk.
  destruct (extractive_summarize_cases word_tokenize sent_tokenize STOPWORDS
              text max_sentences)
    as (out & Hout & [[Hshort _] | (_ & sel & Hsub & -> & _ & Hmore)]);
    [lia|].
  exists sel. split; [done|]. split; [done|].
  rewrite Hmore by lia. unfold slice_to.
  destruct (0 <=? max_sentences) eqn:E; [apply Z.leb_le in E; lia|].
  rewrite length_take. lia.
Qed.

(** X9.  A text made of white space only, or empty, is summarized to the
    empty string, whatever [max_sentences] is. *)
Theorem blank_text_gives_empty_summary text max_sentences :
  all_chars is_space text = true ->
  extractive_summarize text max_sentences = Some "".
Proof.
  intros Hblank%strip_blank. unfold extractive_summarize.
  rewrite Hblank. destruct (decide (text = "")); [done|]. done.
Qed.

Lemma sum_known_zero freq ws :
  frequency_model freq ->
  foldr Z.add 0 (known_count freq <$> ws) = 0
  <-> Forall (fun w => freq !! normalize_word w = None) ws.
Proof.
  intros Hfm. induction ws as [|w ws IH]; csimpl.
  { split; [constructor|done]. }
  pose proof (known_count_nonneg STOPWORDS freq w Hfm) as Hw.
  assert (0 <= foldr Z.add 0 (known_count freq <$> ws)) as Hws.
  { clear IH. induction ws as [|w' ws IH']; csimpl; [lia|].
    pose proof (known_count_nonneg STOPWORDS freq w' Hfm). lia. }
  rewrite Forall_cons, <- IH. unfold known_count in *.
  destruct (freq !! normalize_word w) as [v|] eqn:Hv; simpl in *.
  - apply Hfm in Hv as (_ & _ & _ & Hpos). split; [lia|]. by intros [? _].
  - split; [intros; split; [done|lia]|intros [_ ?]; lia].
Qed.

(** X10.  For a frequency model, a sentence scores 0 exactly when none of
    its tokens is a key of the model; any other sentence scores more. *)
Theorem zero_score_iff_no_known_token sentences freq i s q :
  frequency_model freq ->
  sentences !! i = Some s ->
  PyDict.get (score_sentences sentences freq) i = Some q ->
  ((q == 0)%Q
   <-> Forall (fun w => freq !! normalize_word w = None) (word_tokenize s))
  /\ (~ (q == 0)%Q -> (0 < q)%Q).
Proof.
  intros Hfm Hs Hq. rewrite score_sentences_get, Hs in Hq.
  injection Hq as <-.
  pose proof (sum_counts_nonneg STOPWORDS freq (word_tokenize s) Hfm) as Hnn.
  assert (forall a p, (Qmake a p == 0)%Q <-> a = 0) as Hzero.
  { intros a p. unfold Qeq. simpl. lia. }
  split.
  - rewrite <- (sum_known_zero freq (word_tokenize s) Hfm).
    unfold sentence_score. rewrite Hzero. unfold sum_counts.
    rewrite foldl_add_word by by apply (frequency_model_blank STOPWORDS).
    lia.
  - unfold sentence_score. rewrite Hzero. intros Hne.
    unfold Qlt. simpl. lia.
Qed.

End RankingTheorems.

(** ** More on the extraction cascade *)

Section ExtractionFacts.

Context (page : Type).
Context (PdfReader_pages : bytes -> Result (list (Result page))).
Context (page_extract_text : page -> Result (option string)).
Context (image : Type).
Context (Image_open_convert : bytes -> Result image).
Context (image_to_string : image -> Result string).

Local Abbreviation page_text := (page_text page page_extract_text).
Local Abbreviation collect_pages := (collect_pages page page_extract_text).
Local Abbreviation extract_text_from_pdf_bytes :=
  (extract_text_from_pdf_bytes page PdfReader_pages page_extract_text).
Local Abbreviation extract_text_from_image_bytes :=
  (extract_text_from_image_bytes image Image_open_convert image_to_string).
Local Abbreviation extract_text :=
  (extract_text page PdfReader_pages page_extract_text image
     Image_open_convert image_to_string).

Lemma pdf_text_trimmed b text :
  extract_text_from_pdf_bytes b = Ok text -> strip text = text.
Proof.
  rewrite pdf_text_ok. intros [= <-].
  destruct (PdfReader_pages b) as [pages|]; [|done].
  destruct (collect_pages pages []); [apply strip_idem|done].
Qed.

Lemma image_text_trimmed b text :
  extract_text_from_image_bytes b = Ok text -> strip text = text.
Proof.
  rewrite image_text_ok. intros [= <-].
  destruct (Image_open_convert b) as [img|]; [|done].
  destruct (image_to_string img); [apply strip_idem|done].
Qed.

(** The value of the cascade, from the values of its two strategies. *)
Lemma extract_text_value mime_type b :
  exists pdf img,
    extract_text_from_pdf_bytes b = Ok pdf
    /\ extract_text_from_image_bytes b = Ok img
    /\ extract_text mime_type b
       = Ok (if startswith mime_type "image/" then img
             else if decide (pdf = "") then img else pdf).
Proof.
  eexists _, _. split; [apply pdf_text_ok|]. split; [apply image_text_ok|].
  unfold extract_text. rewrite !pdf_text_ok, !image_text_ok.
  set (pdf := match PdfReader_pages b with
              | Ok pages => _ | Raise _ => _ end).
  set (img := match Image_open_convert b with
              | Ok i => _ | Raise _ => _ end).
  destruct (is_pdf_type mime_type) eqn:Hpdf; csimpl.
  - rewrite (pdf_type_not_image _ Hpdf).
    destruct (decide (pdf = "")) as [E|E]; csimpl; [|done].
    destruct (decide (pdf = "")); done.
  - destruct (startswith mime_type "image/"); [done|].
    destruct (decide (pdf = "")); done.
Qed.

Lemma extract_text_strip mime_type b text :
  extract_text mime_type b = Ok text -> strip text = text.
Proof.
  destruct (extract_text_value mime_type b)
    as (pdf & img & Hpdf & Himg & ->).
  apply pdf_text_trimmed in Hpdf. apply image_text_trimmed in Himg.
  intros [= <-].
  destruct (startswith mime_type "image/"); [done|].
  destruct (decide (pdf = "")); done.
Qed.

(** X11.  Whatever the libraries return, the extracted text is trimmed:
    trimming it again changes nothing, so it is either empty or free of
    leading and trailing white space. *)
Theorem extracted_text_is_trimmed mime_type file_bytes text :
  extract_text mime_type file_bytes = Ok text ->
  strip text = text.
Proof. apply extract_text_strip. Qed.

Lemma collect_pages_raise pages texts e :
  Raise e ∈ pages -> exists e', collect_pages pages texts = Raise e'.
Proof.
  revert texts. induction pages as [|[p|e0] pages IH]; intros texts Hin.
  - by apply elem_of_nil in Hin.
  - apply elem_of_cons in Hin as [?|Hin]; [done|]. simpl. by apply IH.
  - simpl. by exists e0.
Qed.

(** X12.  The pages of a PDF.  When the reader opens the document and
    every page is delivered, the PDF text is the non-empty page texts
    joined by newlines, then trimmed, a page whose extraction raises
    counting as empty.  When the delivery of any page raises, the texts
    already read are dropped and the PDF text is empty. *)
Theorem pdf_pages_all_or_nothing file_bytes pages :
  PdfReader_pages file_bytes = Ok pages ->
  (forall ps, pages = Ok <$> ps ->
     extract_text_from_pdf_bytes file_bytes
     = Ok (strip (join newline
                    (filter (fun t => t <> "") (page_text <$> ps)))))
  /\ (forall e, Raise e ∈ pages ->
        extract_text_from_pdf_bytes file_bytes = Ok "").
Proof.
  intros Hpages. rewrite pdf_text_ok, Hpages. split.
  - intros ps ->. by rewrite collect_pages_all.
  - intros e He. by destruct (collect_pages_raise pages [] e He) as (e' & ->).
Qed.

End ExtractionFacts.

(** X13.  What the cascade does not consult.  For a declared type that
    starts with [image/], the result is that of the image strategy,
    whatever the PDF library would do.  For any other type, once the PDF
    strategy finds text the result is that text, whatever the image
    library would do. *)
Theorem extract_text_skips_unneeded_strategy
  (page page' image image' : Type)
  (PdfReader_pages : bytes -> Result (list (Result page)))
  (page_extract_text : page -> Result (option string))
  (PdfReader_pages' : bytes -> Result (list (Result page')))
  (page_extract_text' : page' -> Result (option string))
  (Image_open_convert : bytes -> Result image)
  (image_to_string : image -> Result string)
  (Image_open_convert' : bytes -> Result image')
  (image_to_string' : image' -> Result string)
  (mime_type : string) (file_bytes : bytes) :
  (startswith mime_type "image/" = true ->
   extract_text page PdfReader_pages page_extract_text image
     Image_open_convert image_to_string mime_type file_bytes
   = extract_text_from_image_bytes image Image_open_convert image_to_string
       file_bytes
   /\ extract_text page' PdfReader_pages' page_extract_text' image
        Image_open_convert image_to_string mime_type file_bytes
      = extract_text page PdfReader_pages page_extract_text image
          Image_open_convert image_to_string mime_type file_bytes)
  /\ (forall text,
        startswith mime_type "image/" = false ->
        extract_text_from_pdf_bytes page PdfReader_pages page_extract_text
          file_bytes = Ok text ->
        text <> "" ->
        extract_text page PdfReader_pages page_extract_text image
          Image_open_convert image_to_string mime_type file_bytes = Ok text
        /\ extract_text page PdfReader_pages page_extract_text image'
             Image_open_convert' image_to_string' mime_type file_bytes
           = Ok text).
Proof.
  split.
  - intros Himg.
    destruct (extract_text_value page PdfReader_pages page_extract_text image
                Image_open_convert image_to_string mime_type file_bytes)
      as (pdf & img & _ & Hi & ->).
    destruct (extract_text_value page' PdfReader_pages' page_extract_text'
                image Image_open_convert image_to_string mime_type file_bytes)
      as (pdf' & img' & _ & Hi' & ->).
    rewrite Himg, Hi. split; [done|]. rewrite Hi in Hi'. by injection Hi' as ->.
  - intros text Hnoimg Hpdf Hne.
    destruct (extract_text_value page PdfReader_pages page_extract_text image
                Image_open_convert image_to_string mime_type file_bytes)
      as (pdf & img & Hp & _ & ->).
    destruct (extract_text_value page PdfReader_pages page_extract_text
                image' Image_open_convert' image_to_string' mime_type
                file_bytes)
      as (pdf' & img' & Hp' & _ & ->).
    rewrite Hpdf in Hp, Hp'. injection Hp as <-. injection Hp' as <-.
    rewrite Hnoimg. destruct (decide (text = "")); done.
Qed.

(** ** More on the route *)

Section RouteFacts.

Context (word_tokenize sent_tokenize : string -> list string).
Context (STOPWORDS : gset string).
Context (page : Type).
Context (PdfReader_pages : bytes -> Result (list (Result page))).
Context (page_extract_text : page -> Result (option string)).
Context (image : Type).
Context (Image_open_convert : bytes -> Result image).
Context (image_to_string : image -> Result string).
Context (b64decode : string -> option bytes).

Local Abbreviation extractive_summarize :=
  (extractive_summarize word_tokenize sent_tokenize STOPWORDS).
Local Abbreviation extract_text :=
  (extract_text page PdfReader_pages page_extract_text image
     Image_open_convert image_to_string).
Local Abbreviation scan_part := (scan_part b64decode).
Local Abbreviation scan_parts := (scan_parts b64decode).
Local Abbreviation scan_content := (scan_content b64decode).
Local Abbreviation scan_contents := (scan_contents b64decode).
Local Abbreviation summarize_route :=
  (summarize_route word_tokenize sent_tokenize STOPWORDS page PdfReader_pages
     page_extract_text image Image_open_convert image_to_string b64decode).

Lemma bind_Raise {A B} (m : Result A) (f : A -> Result B) e :
  (a ← m; f a) = Raise e ->
  m = Raise e \/ exists a, m = Ok a /\ f a = Raise e.
Proof.
  unfold mbind, Result_bind.
  destruct m as [a|e']; intros H; [right; by exists a|left; congruence].
Qed.

Lemma json_get_raise d k dflt e :
  json_get d k dflt = Raise e -> e = AttributeError.
Proof. destruct d; simpl; congruence. Qed.

Lemma json_iter_raise v e : json_iter v = Raise e -> e = TypeError.
Proof. destruct v; simpl; congruence. Qed.

Lemma scan_part_raise st part e : scan_part st part = Raise e -> scan_error e.
Proof.
  unfold scan_part, scan_error.
  destruct (is_dict_with part "inlineData").
  - intros [H|(inline & _ & H)]%bind_Raise;
      [apply json_get_raise in H; auto|].
    apply bind_Raise in H as [H|(mt & _ & H)];
      [apply json_get_raise in H; auto|].
    apply bind_Raise in H as [H|(b64 & _ & H)];
      [apply json_get_raise in H; auto|].
    destruct (truthy b64); [|done].
    destruct b64 as [ | | |s| | ]; try (injection H as <-; auto).
    destruct (b64decode s); [done|]. injection H as <-; auto.
  - destruct (is_dict_with part "text" && negb (truthy (prompt_text st)));
      [|done].
    intros [H|(txt & _ & H)]%bind_Raise; [|done].
    apply json_get_raise in H; auto.
Qed.

Lemma scan_parts_raise parts st e :
  scan_parts st parts = Raise e -> scan_error e.
Proof.
  revert st. induction parts as [|part parts IH]; intros st; simpl; [done|].
  intros [H|(st' & _ & H)]%bind_Raise; [by eapply scan_part_raise|by eapply IH].
Qed.

Lemma scan_content_raise content st e :
  scan_content st content = Raise e -> scan_error e.
Proof.
  unfold scan_content.
  intros [H|(parts & _ & H)]%bind_Raise;
    [apply json_get_raise in H; unfold scan_error; auto|].
  apply bind_Raise in H as [H|(items & _ & H)];
    [apply json_iter_raise in H; unfold scan_error; auto|].
  by eapply scan_parts_raise.
Qed.

Lemma scan_contents_raise contents st e :
  scan_contents st contents = Raise e -> scan_error e.
Proof.
  revert st. induction contents as [|c cs IH]; intros st; simpl; [done|].
  intros [H|(st' & _ & H)]%bind_Raise;
    [by eapply scan_content_raise|by eapply IH].
Qed.

Lemma extract_text_ok mime b : exists text, extract_text mime b = Ok text.
Proof.
  destruct (extract_text_value page PdfReader_pages page_extract_text image
              Image_open_convert image_to_string mime b)
    as (pdf & img & _ & _ & ->). eauto.
Qed.

(** X14.  The errors of the route.  It raises nothing but an
    [HTTPException] with status 400 and one of four details, an
    [AttributeError] or a [TypeError]: no failure of the PDF, image or OCR
    library and no [KeyError] or [IndexError] of the summarizer ever leaves
    it. *)
Theorem route_errors request e :
  summarize_route request = Raise e ->
  e = AttributeError
  \/ e = TypeError
  \/ exists detail,
       e = HTTPException 400 detail
       /\ detail ∈ [ "Invalid JSON payload"; "Missing 'contents' array";
                     "Invalid base64 data"; "No inline file data found" ].
Proof.
  unfold summarize_route.
  intros [H|(payload & _ & H)]%bind_Raise.
  { destruct request; [done|]. injection H as <-.
    right; right. eexists. split; [done|]. set_solver. }
  apply bind_Raise in H as [H|(contents & _ & H)].
  { apply json_get_raise in H. auto. }
  apply bind_Raise in H as [H|(items & _ & H)].
  { assert (e = HTTPException 400 "Missing 'contents' array") as ->
      by (destruct contents as [ | | | |[|c cs]| ]; congruence).
    right; right. eexists. split; [done|]. set_solver. }
  apply bind_Raise in H as [H|(st & _ & H)].
  { apply scan_contents_raise in H as [->|[->| ->]]; auto.
    right; right. eexists. split; [done|]. set_solver. }
  apply bind_Raise in H as [H|(fb & _ & H)].
  { assert (e = HTTPException 400 "No inline file data found") as ->
      by (destruct (file_bytes st) as [[|b bs]|]; congruence).
    right; right. eexists. split; [done|]. set_solver. }
  apply bind_Raise in H as [H|(extracted & _ & H)].
  { destruct (py_or (mime_type st) (JStr "")) as [ | | |m| | ];
      try (injection H as <-; auto).
    destruct (extract_text_ok m fb) as (text & Htext). congruence. }
  destruct (decide (extracted = "")); [done|].
  apply bind_Raise in H as [H|(combined & _ & H)].
  { unfold combined_text in H. destruct (truthy (prompt_text st)); [|done].
    destruct (prompt_text st); try (injection H as <-; auto). done. }
  apply bind_Raise in H as [H|(summary & _ & H)]; [|done].
  destruct (extractive_summarize_total word_tokenize sent_tokenize STOPWORDS
              combined 4) as (out & Hout).
  rewrite Hout in H. done.
Qed.

Lemma scan_part_keeps st part st' :
  scan_part st part = Ok st' ->
  (truthy (prompt_text st) = true -> prompt_text st' = prompt_text st)
  /\ (is_Some (file_bytes st) -> is_Some (file_bytes st')).
Proof.
  unfold scan_part. destruct (is_dict_with part "inlineData").
  - intros (inline & _ & H)%bind_Ok.
    apply bind_Ok in H as (mt & _ & H).
    apply bind_Ok in H as (b64 & _ & H).
    destruct (truthy b64).
    + destruct b64 as [ | | |s| | ]; try done.
      destruct (b64decode s); [|done]. injection H as <-. simpl. eauto.
    + by injection H as <-.
  - destruct (truthy (prompt_text st)); simpl.
    + rewrite andb_false_r. by intros [= <-].
    + destruct (is_dict_with part "text"); simpl.
      * intros (txt & _ & [= <-])%bind_Ok. done.
      * by intros [= <-].
Qed.

Lemma scan_parts_keeps parts st st' :
  scan_parts st parts = Ok st' ->
  (truthy (prompt_text st) = true -> prompt_text st' = prompt_text st)
  /\ (is_Some (file_bytes st) -> is_Some (file_bytes st')).
Proof.
  revert st. induction parts as [|part parts IH]; intros st; simpl.
  { by intros [= <-]. }
  intros (st1 & H1 & H)%bind_Ok.
  apply scan_part_keeps in H1 as [Hp1 Hb1]. apply IH in H as [Hp Hb].
  split.
  - intros Ht. rewrite Hp; [by apply Hp1|]. by rewrite Hp1.
  - auto.
Qed.

Lemma scan_contents_keeps contents st st' :
  scan_contents st contents = Ok st' ->
  (truthy (prompt_text st) = true -> prompt_text st' = prompt_text st)
  /\ (is_Some (file_bytes st) -> is_Some (file_bytes st')).
Proof.
  revert st. induction contents as [|c cs IH]; intros st; simpl.
  { by intros [= <-]. }
  intros (st1 & H1 & H)%bind_Ok. unfold scan_content in H1.
  apply bind_Ok in H1 as (parts & _ & H1).
  apply bind_Ok in H1 as (items & _ & H1).
  apply scan_parts_keeps in H1 as [Hp1 Hb1]. apply IH in H as [Hp Hb].
  split.
  - intros Ht. rewrite Hp; [by apply Hp1|]. by rewrite Hp1.
  - auto.
Qed.

(** X15.  The scan of the request keeps the first prompt: once a truthy
    [text] has been found, no later part replaces it.  The file bytes, once
    found, stay set (a later file replaces them). *)
Theorem scan_keeps_first_prompt contents st st' :
  scan_contents st contents = Ok st' ->
  (truthy (prompt_text st) = true -> prompt_text st' = prompt_text st)
  /\ (is_Some (file_bytes st) -> is_Some (file_bytes st')).
Proof. apply scan_contents_keeps. Qed.

(** X16.  The shape of a summary response.  With [st] the state the scan
    of the request ends in: [source_text_length] is the positive length of
    the text extracted from the file of [st], which is trimmed and does not
    hold the prompt; [source_mime_type] is the declared type of [st] when
    that is truthy, and it is then a non-empty string, and ["unknown"]
    otherwise. *)
Theorem summary_response_shape request summary n m :
  summarize_route request = Ok (SummaryResponse summary n m) ->
  exists payload contents st file mime extracted,
    request = Some payload
    /\ json_get payload "contents" JNull = Ok (JArr contents)
    /\ scan_contents (ScanState None JNull JNull) contents = Ok st
    /\ file_bytes st = Some file
    /\ py_or (mime_type st) (JStr "") = JStr mime
    /\ extract_text mime file = Ok extracted
    /\ strip extracted = extracted
    /\ n = len extracted
    /\ 0 < n
    /\ (truthy (mime_type st) = true ->
        mime_type st = JStr mime /\ mime <> "" /\ m = JStr mime)
    /\ (truthy (mime_type st) = false -> m = JStr "unknown").
Proof.
  intros H. apply (summary_response_inv word_tokenize sent_tokenize STOPWORDS
                     page PdfReader_pages page_extract_text image
                     Image_open_convert image_to_string b64decode) in H
    as (payload & contents & st & file & mime & extracted & Hreq & Hcontents
        & Hscan & Hfile & Hmime & Hext & Hne & -> & -> & _).
  exists payload, contents, st, file, mime, extracted.
  do 6 (split; [done|]).
  split; [by eapply extract_text_strip|]. split; [done|]. split.
  { unfold len. destruct extracted; [done|]. simpl. lia. }
  unfold py_or in *. split.
  - intros Ht. rewrite Ht in *. split; [done|].
    split; [|by rewrite Hmime]. intros ->. by rewrite Hmime in Ht.
  - intros Ht. by rewrite Ht.
Qed.

(** X17.  A part whose [inlineData] holds a truthy [data] that does not
    decode stops the scan with status 400, whatever parts follow it. *)
Theorem invalid_base64_stops_scan st pre st1 part post fields inline data :
  scan_parts st pre = Ok st1 ->
  part = JObj fields ->
  PyDict.get fields "inlineData" = Some (JObj inline) ->
  PyDict.get inline "data" = Some data ->
  truthy data = true ->
  (forall s, data = JStr s -> b64decode s = None) ->
  scan_parts st (pre ++ part :: post)
  = Raise (HTTPException 400 "Invalid base64 data").
Proof.
  intros Hpre -> Hinline Hdata Htruthy Hbad. revert st Hpre.
  induction pre as [|p pre IH]; intros st Hpre.
  - injection Hpre as ->. simpl. unfold scan_part. simpl.
    rewrite Hinline. simpl. rewrite Hdata. simpl. rewrite Htruthy.
    destruct data as [ | | |s| | ]; try done.
    by rewrite (Hbad s eq_refl).
  - simpl in *. apply bind_Ok in Hpre as (st2 & -> & Hpre). simpl.
    by apply IH.
Qed.

Lemma scan_part_typed st part :
  wf_part part = true -> typed_state st ->
  ok_or_400 typed_state (scan_part st part).
Proof.
  intros Hwf [Hm Hp]. unfold scan_part.
  destruct part as [ | | | | |fields]; try done. simpl in *.
  destruct (PyDict.get fields "inlineData") as [inline|] eqn:Hinline; simpl.
  - destruct inline as [ | | | | |ifields]; try done. simpl.
    destruct (truthy (default JNull (PyDict.get ifields "data"))).
    + destruct (default JNull (PyDict.get ifields "data")) as [ | | |s| | ];
        try done.
      destruct (b64decode s); [|done]. by split.
    + by split.
  - destruct (PyDict.get fields "text") as [t|] eqn:Ht; simpl; [|by split].
    destruct (truthy (prompt_text st)); simpl; by split.
Qed.

Lemma ok_or_400_bind {A B} (P : A -> Prop) (Q : B -> Prop) m
    (f : A -> Result B) :
  ok_or_400 P m -> (forall a, P a -> ok_or_400 Q (f a)) ->
  ok_or_400 Q (a ← m; f a).
Proof. destruct m as [a|e]; simpl; [auto|done]. Qed.

Lemma scan_parts_typed parts st :
  forallb wf_part parts = true -> typed_state st ->
  ok_or_400 typed_state (scan_parts st parts).
Proof.
  revert st. induction parts as [|part parts IH]; intros st; simpl; [done|].
  intros [Hpart Hparts]%andb_true_iff Hst.
  apply (ok_or_400_bind typed_state); [by apply scan_part_typed|auto].
Qed.

Lemma scan_contents_typed contents st :
  forallb wf_content contents = true -> typed_state st ->
  ok_or_400 typed_state (scan_contents st contents).
Proof.
  revert st. induction contents as [|c cs IH]; intros st; simpl; [done|].
  intros [Hc Hcs]%andb_true_iff Hst.
  apply (ok_or_400_bind typed_state); [|auto].
  unfold scan_content. destruct c as [ | | | | |fields]; try done.
  simpl in *. destruct (PyDict.get fields "parts") as [parts|]; simpl.
  - destruct parts as [ | | | |items| ]; try done. simpl.
    by apply scan_parts_typed.
  - done.
Qed.

Lemma str_or_falsy_or v d :
  str_or_falsy v = true -> exists m, py_or v (JStr d) = JStr m.
Proof.
  unfold py_or. intros Hv.
  destruct (truthy v) eqn:Ht; [|eauto].
  destruct v; simpl in Hv, Ht; try congruence;
    try (rewrite Ht in Hv; done); eauto.
Qed.

Lemma combined_text_typed v extracted :
  str_or_falsy v = true -> exists c, combined_text v extracted = Ok c.
Proof.
  unfold combined_text. intros Hv.
  destruct (truthy v) eqn:Ht; [|eauto].
  destruct v; simpl in Hv, Ht; try congruence;
    try (rewrite Ht in Hv; done); eauto.
Qed.

(** X18.  A request of the expected shape never fails with anything but
    status 400.  When the body is an object whose [contents] is an array
    of contents of the expected shape, the route answers, or raises an
    [HTTPException] with status 400: no [AttributeError] and no
    [TypeError]. *)
Theorem typed_request_is_answered_or_400 fields contents :
  PyDict.get fields "contents" = Some (JArr contents) ->
  forallb wf_content contents = true ->
  ok_or_400 (fun _ => True) (summarize_route (Some (JObj fields))).
Proof.
  intros Hcontents Hwf. unfold summarize_route. simpl. rewrite Hcontents.
  simpl. destruct contents as [|c cs]; [done|]. simpl.
  apply (ok_or_400_bind typed_state).
  { apply (scan_contents_typed (c :: cs)); [done|by split]. }
  intros st [Hm Hp].
  destruct (file_bytes st) as [[|b bs]|]; try done. simpl.
  destruct (str_or_falsy_or (mime_type st) "" Hm) as (m & ->).
  destruct (extract_text_ok m (b :: bs)) as (extracted & ->). simpl.
  destruct (decide (extracted = "")); [done|].
  destruct (combined_text_typed (prompt_text st) extracted Hp)
    as (combined & ->).
  simpl.
  destruct (extractive_summarize_total word_tokenize sent_tokenize STOPWORDS
              combined 4) as (out & ->).
  done.
Qed.

End RouteFacts.

(** ** [decode_inline_data] *)

Section InlineDataFacts.

Context (b64decode : string -> option bytes).

Local Abbreviation decode_inline_data := (decode_inline_data b64decode).
Local Abbreviation scan_part := (scan_part b64decode).

Lemma decode_inline_data_inv part b :
  decode_inline_data part = Decoded b
  <-> exists fields inline s,
        part = JObj fields
        /\ PyDict.get fields "inlineData" = Some (JObj inline)
        /\ PyDict.get inline "data" = Some (JStr s)
        /\ b64decode s = Some b.
Proof.
  split.
  - unfold decode_inline_data. intros H.
    destruct part as [ | | | | |fields]; try done. simpl in H.
    destruct (PyDict.get fields "inlineData") as [inline|] eqn:Hinline;
      [|done].
    simpl in H. destruct (negb (truthy inline)); [done|].
    destruct (has_data inline) as [[]|]; try done.
    destruct inline as [ | | | | |ifields]; try done.
    destruct (PyDict.get ifields "data") as [[ | | |s| | ]|] eqn:Hdata;
      try done.
    destruct (b64decode s) as [b'|] eqn:Hb; [|done]. injection H as ->.
    by exists fields, ifields, s.
  - intros (fields & inline & s & -> & Hinline & Hdata & Hb).
    assert (truthy (JObj inline) = true) as Ht by by destruct inline.
    unfold decode_inline_data, json_get. rewrite Hinline.
    change (default JNull (Some (JObj inline))) with (JObj inline).
    rewrite Ht. cbn [negb].
    unfold has_data. rewrite Hdata, bool_decide_eq_true_2 by eauto.
    by rewrite Hb.
Qed.

(** X19.  [decode_inline_data] returns bytes exactly for a part that is an
    object whose [inlineData] is an object whose [data] is a string that
    decodes; the bytes are the decoded string. *)
Theorem decode_inline_data_decodes part b :
  decode_inline_data part = Decoded b
  <-> exists fields inline s,
        part = JObj fields
        /\ PyDict.get fields "inlineData" = Some (JObj inline)
        /\ PyDict.get inline "data" = Some (JStr s)
        /\ b64decode s = Some b.
Proof. apply decode_inline_data_inv. Qed.

(** X20.  [decode_inline_data] raises its [ValueError] exactly when the
    part is an object whose [inlineData] is missing, falsy, or a string,
    array or object that does not contain ["data"]. *)
Theorem decode_inline_data_value_error part msg :
  decode_inline_data part = ValueError msg
  <-> msg = "No inlineData.data found in part"
      /\ exists fields,
           part = JObj fields
           /\ (truthy (default JNull (PyDict.get fields "inlineData")) = false
               \/ has_data (default JNull (PyDict.get fields "inlineData"))
                  = Some false).
Proof.
  unfold decode_inline_data. split.
  - intros H. destruct part as [ | | | | |fields]; try done. simpl in H.
    destruct (truthy (default JNull (PyDict.get fields "inlineData")))
      eqn:Ht; simpl in H.
    + destruct (has_data (default JNull (PyDict.get fields "inlineData")))
        as [[]|] eqn:Hd; try done.
      * destruct (default JNull (PyDict.get fields "inlineData"))
          as [ | | | | |ifields]; try done.
        destruct (PyDict.get ifields "data") as [[ | | |s| | ]|]; try done.
        by destruct (b64decode s).
      * injection H as <-. split; [done|]. exists fields. auto.
    + injection H as <-. split; [done|]. exists fields. auto.
  - intros (-> & fields & -> & [Ht|Hd]); simpl.
    + by rewrite Ht.
    + destruct (truthy (default JNull (PyDict.get fields "inlineData")));
        simpl; [|done]. by rewrite Hd.
Qed.

(** X21.  The route and [decode_inline_data] on the same part.  When
    [decode_inline_data] returns bytes, the scan of the route accepts the
    part and leaves the prompt alone; it stores the same bytes, except for
    an empty [data] string, which the route passes over. *)
Theorem scan_part_agrees_with_decode st part b :
  decode_inline_data part = Decoded b ->
  exists st' fields inline s,
    scan_part st part = Ok st'
    /\ part = JObj fields
    /\ PyDict.get fields "inlineData" = Some (JObj inline)
    /\ PyDict.get inline "data" = Some (JStr s)
    /\ prompt_text st' = prompt_text st
    /\ mime_type st' = default JNull (PyDict.get inline "mimeType")
    /\ file_bytes st' = if decide (s = "") then file_bytes st else Some b.
Proof.
  intros (fields & inline & s & -> & Hinline & Hdata & Hb)%decode_inline_data_inv.
  unfold scan_part. simpl. rewrite Hinline. simpl. rewrite Hdata. simpl.
  destruct (decide (s = "")) as [->|Hne].
  - simpl. eexists _, fields, inline, "". by repeat split.
  - rewrite bool_decide_eq_false_2 by done. simpl. rewrite Hb.
    eexists _, fields, inline, s. repeat split; try done.
    simpl. by destruct (decide (s = "")).
Qed.

End InlineDataFacts.


(** ** The further theorems on concrete inputs *)

Lemma fallback_first_sentences_witness :
  50 <= len (strip MoreSamples.stopword_text)
  /\ 0 <= 2 < Z.of_nat (length (Sample.sent_tokenize MoreSamples.stopword_text))
  /\ Forall (silent Sample.STOPWORDS)
       (Sample.word_tokenize MoreSamples.stopword_text)
  /\ Sample.summarize MoreSamples.stopword_text 2
     = Some (join blank_line
               (take (Z.to_nat 2)
                  (Sample.sent_tokenize MoreSamples.stopword_text))).
Proof.
  assert (Forall (silent Sample.STOPWORDS)
            (Sample.word_tokenize MoreSamples.stopword_text)) as Hsilent.
  { apply (build_word_freq_empty Sample.word_tokenize Sample.STOPWORDS).
    by vm_compute. }
  split; [by vm_compute|]. split; [by vm_compute|]. split; [exact Hsilent|].
  apply (fallback_first_sentences Sample.word_tokenize Sample.sent_tokenize
           Sample.STOPWORDS MoreSamples.stopword_text 2).
  - by vm_compute.
  - by vm_compute.
  - exact Hsilent.
Defined.

Lemma sorted_desc_stable_witness :
  let l := [ (0%nat, 1 # 2); (1%nat, 3 # 4); (2%nat, 2 # 4); (3%nat, 3 # 4) ]%Q
  in
  StronglySorted lt l.*1
  /\ sorted_desc l
     = [ (1%nat, 3 # 4); (3%nat, 3 # 4); (0%nat, 1 # 2); (2%nat, 2 # 4) ]%Q
  /\ sorted_desc l ≡ₚ l
  /\ StronglySorted beats (sorted_desc l).
Proof.
  intros l.
  assert (StronglySorted lt l.*1) as Hl by apply (seq_sorted 0 4).
  split; [exact Hl|]. split; [by vm_compute|].
  exact (sorted_desc_stable l Hl).
Defined.

Lemma top_sentences_selected_witness :
  50 <= len (strip Sample.mammals_text)
  /\ 0 <= 2 < Z.of_nat (length (Sample.sent_tokenize Sample.mammals_text))
  /\ build_word_freq Sample.word_tokenize Sample.STOPWORDS Sample.mammals_text
     <> ∅
  /\ exists top sel,
       StronglySorted lt top
       /\ length top = Z.to_nat 2
       /\ mapM (fun i => Sample.sent_tokenize Sample.mammals_text !! i) top
          = Some sel
       /\ Sample.summarize Sample.mammals_text 2 = Some (join blank_line sel)
       /\ forall i j qi qj,
            i ∈ top -> j ∉ top ->
            PyDict.get
              (score_sentences Sample.word_tokenize
                 (Sample.sent_tokenize Sample.mammals_text)
                 (build_word_freq Sample.word_tokenize Sample.STOPWORDS
                    Sample.mammals_text)) i = Some qi ->
            PyDict.get
              (score_sentences Sample.word_tokenize
                 (Sample.sent_tokenize Sample.mammals_text)
                 (build_word_freq Sample.word_tokenize Sample.STOPWORDS
                    Sample.mammals_text)) j = Some qj ->
            beats (i, qi) (j, qj).
Proof.
  assert (build_word_freq Sample.word_tokenize Sample.STOPWORDS
            Sample.mammals_text <> ∅) as Hfreq.
  { intros H. apply (f_equal (fun m => m !! "cats")) in H.
    by vm_compute in H. }
  split; [by vm_compute|]. split; [by vm_compute|]. split; [exact Hfreq|].
  apply (top_sentences_selected Sample.word_tokenize Sample.sent_tokenize
           Sample.STOPWORDS Sample.mammals_text 2).
  - by vm_compute.
  - by vm_compute.
  - exact Hfreq.
Defined.

Lemma summary_has_exactly_k_sentences_witness :
  50 <= len (strip Sample.mammals_text)
  /\ 0 <= 2 < Z.of_nat (length (Sample.sent_tokenize Sample.mammals_text))
  /\ exists sel,
       Sample.summarize Sample.mammals_text 2 = Some (join blank_line sel)
       /\ sel `sublist_of` Sample.sent_tokenize Sample.mammals_text
       /\ Z.of_nat (length sel) = 2
       /\ (2 = 0 -> Sample.summarize Sample.mammals_text 2 = Some "").
Proof.
  split; [by vm_compute|]. split; [by vm_compute|].
  apply (summary_has_exactly_k_sentences Sample.word_tokenize
           Sample.sent_tokenize Sample.STOPWORDS Sample.mammals_text 2);
    by vm_compute.
Defined.

Lemma negative_bound_drops_sentences_witness :
  50 <= len (strip Sample.mammals_text)
  /\ -1 < 0
  /\ Sample.summarize Sample.mammals_text (-1)
     = Some (join blank_line
               [ "Cats are mammals."; "Dogs are mammals too.";
                 "Water boils at 100 degrees." ])
  /\ exists sel,
       Sample.summarize Sample.mammals_text (-1) = Some (join blank_line sel)
       /\ sel `sublist_of` Sample.sent_tokenize Sample.mammals_text
       /\ length sel
          = (length (Sample.sent_tokenize Sample.mammals_text)
             - Z.to_nat (- -1))%nat.
Proof.
  split; [by vm_compute|]. split; [lia|]. split; [by vm_compute|].
  apply (negative_bound_drops_sentences Sample.word_tokenize
           Sample.sent_tokenize Sample.STOPWORDS Sample.mammals_text (-1)).
  - by vm_compute.
  - lia.
Defined.

Lemma blank_text_gives_empty_summary_witness :
  let text := String " " (String nl (String " " EmptyString)) in
  all_chars is_space text = true
  /\ Sample.summarize text 4 = Some "".
Proof.
  intros text. split; [by vm_compute|].
  apply (blank_text_gives_empty_summary Sample.word_tokenize
           Sample.sent_tokenize Sample.STOPWORDS text 4).
  by vm_compute.
Defined.

Lemma zero_score_iff_no_known_token_witness :
  let freq := build_word_freq Sample.word_tokenize Sample.STOPWORDS
                Sample.mammals_text in
  let sentences := Sample.mammals_sentences ++ [ "It is so." ] in
  frequency_model Sample.STOPWORDS freq
  /\ sentences !! 4%nat = Some "It is so."
  /\ PyDict.get (score_sentences Sample.word_tokenize sentences freq) 4%nat
     = Some (0 # 5)%Q
  /\ ((0 # 5 == 0)%Q
      <-> Forall (fun w => freq !! normalize_word w = None)
            (Sample.word_tokenize "It is so."))
  /\ (~ (0 # 5 == 0)%Q -> (0 < 0 # 5)%Q).
Proof.
  intros freq sentences.
  pose proof (build_word_freq_model Sample.word_tokenize Sample.STOPWORDS
                Sample.mammals_text) as Hfm.
  split; [exact Hfm|]. split; [done|]. split; [by vm_compute|].
  apply (zero_score_iff_no_known_token Sample.word_tokenize Sample.STOPWORDS
           sentences freq 4%nat "It is so." (0 # 5)%Q Hfm).
  - done.
  - by vm_compute.
Defined.

Lemma extracted_text_is_trimmed_witness :
  Sample.extract "image/png" Sample.report_bytes = Ok Sample.report_text
  /\ strip Sample.report_text = Sample.report_text.
Proof.
  split; [by vm_compute|].
  apply (extracted_text_is_trimmed Sample.page Sample.PdfReader_pages
           Sample.page_extract_text Sample.image Sample.Image_open_convert
           Sample.image_to_string "image/png" Sample.report_bytes).
  by vm_compute.
Defined.

Lemma pdf_pages_all_or_nothing_witness :
  let pages := [Ok 0%nat; Ok 1%nat; Ok 2%nat] in
  MoreSamples.three_pages [] = Ok pages
  /\ extract_text_from_pdf_bytes nat MoreSamples.three_pages
       MoreSamples.three_texts [] = Ok "Invoice 2024"
  /\ (forall ps, pages = Ok <$> ps ->
        extract_text_from_pdf_bytes nat MoreSamples.three_pages
          MoreSamples.three_texts []
        = Ok (strip (join newline
                       (filter (fun t => t <> "")
                          (page_text nat MoreSamples.three_texts <$> ps)))))
  /\ (forall e, Raise e ∈ pages ->
        extract_text_from_pdf_bytes nat MoreSamples.three_pages
          MoreSamples.three_texts [] = Ok "").
Proof.
  intros pages. split; [done|]. split; [by vm_compute|].
  by apply (pdf_pages_all_or_nothing nat MoreSamples.three_pages
              MoreSamples.three_texts [] pages).
Defined.

Lemma route_errors_witness :
  let request :=
    Some (JObj [("contents", JArr [JObj [("parts", JArr [
      MoreSamples.prompt_part "Summarize."; MoreSamples.broken_part;
      MoreSamples.report_part])]])]) in
  let e := HTTPException 400 "Invalid base64 data" in
  Sample.route request = Raise e
  /\ (e = AttributeError
      \/ e = TypeError
      \/ exists detail,
           e = HTTPException 400 detail
           /\ detail ∈ [ "Invalid JSON payload"; "Missing 'contents' array";
                         "Invalid base64 data"; "No inline file data found" ]).
Proof.
  intros request e. split; [by vm_compute|].
  apply (route_errors Sample.word_tokenize Sample.sent_tokenize
           Sample.STOPWORDS Sample.page Sample.PdfReader_pages
           Sample.page_extract_text Sample.image Sample.Image_open_convert
           Sample.image_to_string Sample.b64decode request e).
  by vm_compute.
Defined.

Lemma scan_keeps_first_prompt_witness :
  let st := ScanState None JNull (JStr "Earlier prompt.") in
  let contents :=
    [ JObj [("parts", JArr [ MoreSamples.prompt_part "Later prompt.";
                             MoreSamples.report_part ])] ] in
  let st' := ScanState (Some Sample.report_bytes) (JStr "image/png")
               (JStr "Earlier prompt.") in
  scan_contents Sample.b64decode st contents = Ok st'
  /\ (truthy (prompt_text st) = true -> prompt_text st' = prompt_text st)
  /\ (is_Some (file_bytes st) -> is_Some (file_bytes st')).
Proof.
  intros st contents st'. split; [by vm_compute|].
  apply (scan_keeps_first_prompt Sample.b64decode contents st st').
  by vm_compute.
Defined.

Lemma summary_response_shape_witness :
  Sample.route Sample.report_request
  = Ok (SummaryResponse Sample.report_summary (len Sample.report_text)
          (JStr "image/png"))
  /\ exists payload contents st file mime extracted,
       Sample.report_request = Some payload
       /\ json_get payload "contents" JNull = Ok (JArr contents)
       /\ scan_contents Sample.b64decode (ScanState None JNull JNull) contents
          = Ok st
       /\ file_bytes st = Some file
       /\ py_or (mime_type st) (JStr "") = JStr mime
       /\ Sample.extract mime file = Ok extracted
       /\ strip extracted = extracted
       /\ len Sample.report_text = len extracted
       /\ 0 < len Sample.report_text
       /\ (truthy (mime_type st) = true ->
           mime_type st = JStr mime /\ mime <> ""
           /\ JStr "image/png" = JStr mime)
       /\ (truthy (mime_type st) = false -> JStr "image/png" = JStr "unknown").
Proof.
  split; [by vm_compute|].
  apply (summary_response_shape Sample.word_tokenize Sample.sent_tokenize
           Sample.STOPWORDS Sample.page Sample.PdfReader_pages
           Sample.page_extract_text Sample.image Sample.Image_open_convert
           Sample.image_to_string Sample.b64decode Sample.report_request
           Sample.report_summary (len Sample.report_text) (JStr "image/png")).
  by vm_compute.
Defined.

Lemma invalid_base64_stops_scan_witness :
  let st := ScanState None JNull JNull in
  let pre := [ MoreSamples.prompt_part "Summarize." ] in
  let st1 := ScanState None JNull (JStr "Summarize.") in
  let inline := [ ("mimeType", JStr "image/png");
                  ("data", JStr "not base64!") ] in
  scan_parts Sample.b64decode st pre = Ok st1
  /\ MoreSamples.broken_part = JObj [("inlineData", JObj inline)]
  /\ PyDict.get [("inlineData", JObj inline)] "inlineData"
     = Some (JObj inline)
  /\ PyDict.get inline "data" = Some (JStr "not base64!")
  /\ truthy (JStr "not base64!") = true
  /\ (forall s, JStr "not base64!" = JStr s -> Sample.b64decode s = None)
  /\ scan_parts Sample.b64decode st
       (pre ++ MoreSamples.broken_part :: [ MoreSamples.report_part ])
     = Raise (HTTPException 400 "Invalid base64 data").
Proof.
  intros st pre st1 inline.
  assert (forall s, JStr "not base64!" = JStr s -> Sample.b64decode s = None)
    as Hbad by (by intros s [= <-]).
  split; [done|]. split; [done|]. split; [done|]. split; [done|].
  split; [done|]. split; [exact Hbad|].
  by apply (invalid_base64_stops_scan Sample.b64decode st pre st1
              MoreSamples.broken_part [ MoreSamples.report_part ]
              [("inlineData", JObj inline)] inline (JStr "not base64!")).
Defined.

Lemma typed_request_is_answered_or_400_witness :
  let contents :=
    [ JObj [("parts", JArr [ MoreSamples.prompt_part Sample.report_prompt;
                             MoreSamples.report_part ])] ] in
  let fields := [ ("contents", JArr contents) ] in
  PyDict.get fields "contents" = Some (JArr contents)
  /\ forallb wf_content contents = true
  /\ Sample.route (Some (JObj fields))
     = Ok (SummaryResponse Sample.report_summary (len Sample.report_text)
             (JStr "image/png"))
  /\ ok_or_400 (fun _ => True) (Sample.route (Some (JObj fields))).
Proof.
  intros contents fields. split; [done|]. split; [done|].
  split; [by vm_compute|].
  by apply (typed_request_is_answered_or_400 Sample.word_tokenize
              Sample.sent_tokenize Sample.STOPWORDS Sample.page
              Sample.PdfReader_pages Sample.page_extract_text Sample.image
              Sample.Image_open_convert Sample.image_to_string
              Sample.b64decode fields contents).
Defined.

Lemma scan_part_agrees_with_decode_witness :
  let st := ScanState None JNull (JStr "Summarize.") in
  decode_inline_data Sample.b64decode MoreSamples.report_part
  = Decoded Sample.report_bytes
  /\ scan_part Sample.b64decode st MoreSamples.report_part
     = Ok (ScanState (Some Sample.report_bytes) (JStr "image/png")
             (JStr "Summarize."))
  /\ exists st' fields inline s,
       scan_part Sample.b64decode st MoreSamples.report_part = Ok st'
       /\ MoreSamples.report_part = JObj fields
       /\ PyDict.get fields "inlineData" = Some (JObj inline)
       /\ PyDict.get inline "data" = Some (JStr s)
       /\ prompt_text st' = prompt_text st
       /\ mime_type st' = default JNull (PyDict.get inline "mimeType")
       /\ file_bytes st'
          = if decide (s = "") then file_bytes st
            else Some Sample.report_bytes.
Proof.
  intros st. split; [by vm_compute|]. split; [by vm_compute|].
  apply (scan_part_agrees_with_decode Sample.b64decode st
           MoreSamples.report_part Sample.report_bytes).
  by vm_compute.
Defined.
